(** * Patient vitals streaming pipeline: a shallow embedding in Rocq

    Source files:
    - [dataflow/streamingpipeline.py]: the environment check run at import
      time and the Beam DoFn [ParseAndValidate.process];
    - [simulator1/patient_vitals.py]: the load generator, its start-up
      configuration checks and [inject_error].

    Python values are modelled as follows.
    - A JSON value as returned by [json.loads] is the inductive [json];
      a parsed object (a Python dict) is an association list in insertion
      order whose keys are unique, looked up by its first matching key.
    - A Python [int] is a [Z]; a Python [float] is an IEEE-754 binary64
      value, the [spec_float] of the Standard Library with [prec = 53] and
      [emax = 1024].
    - Strings are [String.string] (ASCII characters).
    - Raised exceptions are the [Raise] case of the error type [result];
      the exception classes that the modelled code can raise are listed in
      [exc].
    - The library calls that the repository does not implement
      ([bytes.decode("utf-8")], [json.loads] and [float(str)]) are the
      fields of the record [PyLib]; every statement is made for all of
      them. *)

From Stdlib Require Import ZArith List String Ascii Bool Lia.
From Stdlib Require Import Floats.SpecFloat.
Import ListNotations.

Open Scope string_scope.
Open Scope Z_scope.
Set Warnings "-register-all".

(** ** Python runtime values *)

(** The binary64 parameters of a Python [float]. *)
Definition prec : Z := 53.
Definition emax : Z := 1024.

(** Exception classes raised along the modelled code paths; every one of
    them is a subclass of [Exception]. *)
Inductive exc : Type :=
| UnicodeDecodeError
| JSONDecodeError
| TypeError
| ValueError
| OverflowError
| KeyError.

Definition is_Exception (e : exc) : bool :=
  match e with
  | UnicodeDecodeError | JSONDecodeError | TypeError
  | ValueError | OverflowError | KeyError => true
  end.

(** A computation that returns a value or raises an exception. *)
Inductive result (A : Type) : Type :=
| Ok (a : A)
| Raise (e : exc).
Arguments Ok {A} a.
Arguments Raise {A} e.

Definition bind {A B : Type} (m : result A) (k : A -> result B) : result B :=
  match m with
  | Ok a => k a
  | Raise e => Raise e
  end.

Notation "x <- m ;; k" := (bind m (fun x => k))
  (at level 61, m at next level, right associativity).

(** A value produced by [json.loads]. *)
Inductive json : Type :=
| JNull
| JBool (b : bool)
| JInt (z : Z)
| JFloat (f : spec_float)
| JStr (s : string)
| JArr (l : list json)
| JObj (d : list (string * json)).

(** Dict operations on an object's items. *)
Fixpoint dict_get (k : string) (d : list (string * json)) : option json :=
  match d with
  | [] => None
  | (k', v) :: d' => if String.eqb k k' then Some v else dict_get k d'
  end.

Definition dict_mem (k : string) (d : list (string * json)) : bool :=
  match dict_get k d with Some _ => true | None => false end.

(** [d[k] = v]: replaces the value of an existing key in place, otherwise
    appends the key. *)
Fixpoint dict_set (k : string) (v : json) (d : list (string * json))
  : list (string * json) :=
  match d with
  | [] => [(k, v)]
  | (k', v') :: d' =>
      if String.eqb k k' then (k', v) :: d' else (k', v') :: dict_set k v d'
  end.

(** [d.pop(k, None)]. *)
Definition dict_pop (k : string) (d : list (string * json))
  : list (string * json) :=
  filter (fun kv => negb (String.eqb k (fst kv))) d.

(** The library functions the validator calls but the repository does not
    define. *)
Record PyLib : Type := {
  decode_utf8 : list Byte.byte -> result string;   (* bytes.decode("utf-8") *)
  json_loads : string -> result json;              (* json.loads *)
  float_of_str : string -> result spec_float       (* float(str) *)
}.

(** *** [str] helpers *)

(** [s.startswith(p)]. *)
Fixpoint str_prefix (p s : string) : bool :=
  match p, s with
  | EmptyString, _ => true
  | String c p', String c' s' => Ascii.eqb c c' && str_prefix p' s'
  | String _ _, EmptyString => false
  end.

(** [p in s] for two strings: substring test. *)
Fixpoint str_contains (s p : string) : bool :=
  str_prefix p s ||
  match s with
  | EmptyString => false
  | String _ s' => str_contains s' p
  end.

(** ASCII characters that [str.isspace] accepts. *)
Definition is_space (c : ascii) : bool :=
  let n := nat_of_ascii c in
  (Nat.leb 9 n && Nat.leb n 13) || (Nat.leb 28 n && Nat.leb n 32).

Fixpoint lstrip (l : list ascii) : list ascii :=
  match l with
  | c :: l' => if is_space c then lstrip l' else l
  | [] => []
  end.

(** [s.strip()] *)
Definition strip_list (l : list ascii) : list ascii :=
  rev (lstrip (rev (lstrip l))).

Definition str_strip (s : string) : string :=
  string_of_list_ascii (strip_list (list_ascii_of_string s)).

(** [s.lower()] on ASCII letters. *)
Definition lower_char (c : ascii) : ascii :=
  let n := nat_of_ascii c in
  if Nat.leb 65 n && Nat.leb n 90 then ascii_of_nat (n + 32) else c.

Definition str_lower (s : string) : string :=
  string_of_list_ascii (map lower_char (list_ascii_of_string s)).

(** *** [int(...)] and [float(...)] *)

Definition is_digit (c : ascii) : bool :=
  let n := nat_of_ascii c in Nat.leb 48 n && Nat.leb n 57.

Definition digit_val (c : ascii) : Z := Z.of_nat (nat_of_ascii c) - 48.

(** Base-10 digits with single underscores between digits; [prev] says
    whether the previous character was a digit. *)
Fixpoint parse_digits (l : list ascii) (acc : Z) (prev : bool) : option Z :=
  match l with
  | [] => if prev then Some acc else None
  | c :: l' =>
      if is_digit c then parse_digits l' (acc * 10 + digit_val c) true
      else if Ascii.eqb c "_"%char && prev then parse_digits l' acc false
      else None
  end.

(** [int(s)] for a string [s]: surrounding whitespace, an optional sign,
    then base-10 digits; more than 4300 digits (the default
    [sys.get_int_max_str_digits()]) raise [ValueError]. *)
Definition int_of_str (s : string) : result Z :=
  let l := strip_list (list_ascii_of_string s) in
  if Nat.ltb 4300 (List.length (filter is_digit l)) then Raise ValueError else
  let parsed :=
    match l with
    | c :: l' =>
        if Ascii.eqb c "-"%char then option_map Z.opp (parse_digits l' 0 false)
        else if Ascii.eqb c "+"%char then parse_digits l' 0 false
        else parse_digits l 0 false
    | [] => None
    end in
  match parsed with
  | Some z => Ok z
  | None => Raise ValueError
  end.

(** [int(f)] for a float: truncation toward zero. *)
Definition int_of_float (f : spec_float) : result Z :=
  match f with
  | S754_zero _ => Ok 0
  | S754_infinity _ => Raise OverflowError
  | S754_nan => Raise ValueError
  | S754_finite s m e =>
      let n := if s then Zneg m else Zpos m in
      if 0 <=? e then Ok (n * 2 ^ e) else Ok (Z.quot n (2 ^ (- e)))
  end.

(** The float nearest to an integer (round half to even), no overflow check. *)
Definition Z2F (z : Z) : spec_float := binary_normalize prec emax z 0 false.

(** [float(n)] for an int: raises [OverflowError] when it does not fit. *)
Definition float_of_int (z : Z) : result spec_float :=
  match Z2F z with
  | S754_infinity _ => Raise OverflowError
  | f => Ok f
  end.

(** [int(v)] for a JSON value; [bool] is a subclass of [int]. *)
Definition py_int (v : json) : result Z :=
  match v with
  | JBool b => Ok (if b then 1 else 0)
  | JInt z => Ok z
  | JFloat f => int_of_float f
  | JStr s => int_of_str s
  | JNull | JArr _ | JObj _ => Raise TypeError
  end.

(** [float(v)] for a JSON value. *)
Definition py_float (L : PyLib) (v : json) : result spec_float :=
  match v with
  | JBool b => float_of_int (if b then 1 else 0)
  | JInt z => float_of_int z
  | JFloat f => Ok f
  | JStr s => float_of_str L s
  | JNull | JArr _ | JObj _ => Raise TypeError
  end.

(** [a <= b] on floats (false when either is NaN). *)
Definition float_le (a b : spec_float) : bool := SFleb a b.

(** *** Containment and subscription *)

(** [k in obj] for a string [k]. *)
Definition py_contains (obj : json) (k : string) : result bool :=
  match obj with
  | JObj d => Ok (dict_mem k d)
  | JArr l =>
      Ok (existsb (fun x => match x with JStr s => String.eqb s k | _ => false end) l)
  | JStr s => Ok (str_contains s k)
  | JNull | JBool _ | JInt _ | JFloat _ => Raise TypeError
  end.

(** [all(k in obj for k in ks)], short-circuiting. *)
Fixpoint py_all_in (obj : json) (ks : list string) : result bool :=
  match ks with
  | [] => Ok true
  | k :: ks' =>
      b <- py_contains obj k ;;
      if b then py_all_in obj ks' else Ok false
  end.

(** [obj[k]] for a string [k]. *)
Definition py_getitem (obj : json) (k : string) : result json :=
  match obj with
  | JObj d => match dict_get k d with Some v => Ok v | None => Raise KeyError end
  | _ => Raise TypeError
  end.

(** ** The validator: [ParseAndValidate.process] *)

(** The row dict built by [process]; its keys are the fields. [ingest_ts]
    is the processing-time clock reading (the source formats it as an
    RFC 3339 string). *)
Record VitalsRecord : Type := mkVitals {
  event_ts : json;
  patient_id : Z;
  heart_rate : Z;
  temperature : spec_float;
  bp_diastolic : Z;
  bp_systolic : Z;
  spo2 : Z;
  ingest_ts : Z
}.

Definition required : list string :=
  ["event_ts"; "patient_id"; "heart_rate"; "temperature";
   "bp_diastolic"; "bp_systolic"; "spo2"]%string.

(** The body of the [try] block after [json.loads]: the presence check, the
    row construction (coercions, in dict order) and the six range checks.
    The result is the list of yielded rows. *)
Definition validate_obj (L : PyLib) (ingest : Z) (obj : json)
  : result (list VitalsRecord) :=
  ok <- py_all_in obj required ;;
  if negb ok then Ok [] else
  ev <- py_getitem obj "event_ts" ;;
  pid <- (v <- py_getitem obj "patient_id" ;; py_int v) ;;
  hr <- (v <- py_getitem obj "heart_rate" ;; py_int v) ;;
  tmp <- (v <- py_getitem obj "temperature" ;; py_float L v) ;;
  dia <- (v <- py_getitem obj "bp_diastolic" ;; py_int v) ;;
  sys <- (v <- py_getitem obj "bp_systolic" ;; py_int v) ;;
  sp <- (v <- py_getitem obj "spo2" ;; py_int v) ;;
  let row := mkVitals ev pid hr tmp dia sys sp ingest in
  if negb ((0 <? pid) && (pid <=? 10000)) then Ok [] else
  if negb ((30 <=? hr) && (hr <=? 220)) then Ok [] else
  if negb (float_le (Z2F 85) tmp && float_le tmp (Z2F 110)) then Ok [] else
  if negb ((30 <=? dia) && (dia <=? 150)) then Ok [] else
  if negb ((50 <=? sys) && (sys <=? 250)) then Ok [] else
  if negb ((50 <=? sp) && (sp <=? 100)) then Ok [] else
  Ok [row].

(** The whole [try] block. *)
Definition process_try (L : PyLib) (ingest : Z) (message_bytes : list Byte.byte)
  : result (list VitalsRecord) :=
  raw <- decode_utf8 L message_bytes ;;
  obj <- json_loads L raw ;;
  validate_obj L ingest obj.

(** [except Exception: return]. *)
Definition except_Exception (r : result (list VitalsRecord))
  : result (list VitalsRecord) :=
  match r with
  | Ok rows => Ok rows
  | Raise e => if is_Exception e then Ok [] else Raise e
  end.

(** [ParseAndValidate.process]: [now] is the clock reading
    [Timestamp.now()] taken on entry, before the [try]. *)
Definition process (L : PyLib) (now : Z) (message_bytes : list Byte.byte)
  : result (list VitalsRecord) :=
  let ingest := now in
  except_Exception (process_try L ingest message_bytes).

(** ** The load generator: [inject_error] *)

Definition required_fields : list string :=
  ["patient_id"; "event_ts"; "heart_rate"; "temperature";
   "bp_systolic"; "bp_diastolic"; "spo2"]%string.

Definition modes : list string :=
  ["missing_field"; "null_field"; "negative_value"; "out_of_range"; "bad_type"]%string.

(** [inject_error record error_mode missing_field_style]; the two calls to
    [random.choice] are the arguments [mode_pick] (drawn from [modes]) and
    [field_pick] (drawn from [required_fields]). *)
Definition inject_error (record : list (string * json))
  (error_mode missing_field_style : string) (mode_pick field_pick : string)
  : list (string * json) :=
  if String.eqb error_mode "none" then record else
  let mode := if String.eqb error_mode "mixed" then mode_pick else error_mode in
  if String.eqb mode "missing_field" then
    if String.eqb missing_field_style "delete" then dict_pop field_pick record
    else dict_set field_pick JNull record
  else if String.eqb mode "null_field" then dict_set field_pick JNull record
  else if String.eqb mode "negative_value" then dict_set "heart_rate" (JInt (-1)) record
  else if String.eqb mode "out_of_range" then dict_set "spo2" (JInt 150) record
  else if String.eqb mode "bad_type" then dict_set "bp_systolic" (JStr "one-sixty") record
  else record.

(** The corrupted branch of the generator loop in [main]:
    [vitals = inject_error(...); vitals["_is_error"] = True]. *)
Definition corrupt_payload (record : list (string * json))
  (error_mode missing_field_style mode_pick field_pick : string)
  : list (string * json) :=
  dict_set "_is_error" (JBool true)
    (inject_error record error_mode missing_field_style mode_pick field_pick).

(** ** Start-up configuration *)

(** The process environment. *)
Definition Env : Type := string -> option string.

(** [os.getenv(k, default)]. *)
Definition getenv_default (env : Env) (k default : string) : string :=
  match env k with Some v => v | None => default end.

(** How start-up ends: [raise SystemExit(diagnostic)], an uncaught
    exception (the interpreter exits with a traceback), or the process goes
    on with a configuration. *)
Inductive startup (C : Type) : Type :=
| Exit (diagnostic : string)
| Crash (e : exc)
| Start (cfg : C).
Arguments Exit {C} diagnostic.
Arguments Crash {C} e.
Arguments Start {C} cfg.

(** The module-level check of [streamingpipeline.py]. *)
Definition pipeline_startup (env : Env) : startup (string * string) :=
  let PUBSUB_SUBSCRIPTION := getenv_default env "PUBSUB_SUBSCRIPTION" "" in
  let BIGQUERY_TABLE := getenv_default env "BIGQUERY_TABLE" "" in
  if String.eqb PUBSUB_SUBSCRIPTION "" || String.eqb BIGQUERY_TABLE "" then
    Exit "Missing env vars. Set PUBSUB_SUBSCRIPTION and BIGQUERY_TABLE."
  else Start (PUBSUB_SUBSCRIPTION, BIGQUERY_TABLE).

Definition startup_bind {A B : Type} (m : startup A) (k : A -> startup B)
  : startup B :=
  match m with
  | Exit d => Exit d
  | Crash e => Crash e
  | Start a => k a
  end.

Notation "x <-- m ;;; k" := (startup_bind m (fun x => k))
  (at level 61, m at next level, right associativity).

(** *** [repr] of a [str] *)

(** The characters backslash, double quote and single quote. *)
Definition bs : ascii := ascii_of_nat 92.
Definition dq : ascii := ascii_of_nat 34.
Definition sq : ascii := ascii_of_nat 39.

(** A lower-case hexadecimal digit. *)
Definition hex_digit (n : nat) : ascii :=
  if Nat.ltb n 10 then ascii_of_nat (48 + n) else ascii_of_nat (87 + n).

(** One character of [repr(s)] quoted with [q]: the quote and the
    backslash escaped, [\t], [\n], [\r], and [\xhh] for the code points
    below 256 that are not printable (controls, DEL, U+0080 to U+00A0 and
    U+00AD). *)
Definition repr_char (q c : ascii) : string :=
  let n := nat_of_ascii c in
  if Ascii.eqb c q || Nat.eqb n 92 then String bs (String c EmptyString)
  else if Nat.eqb n 9 then String bs "t"
  else if Nat.eqb n 10 then String bs "n"
  else if Nat.eqb n 13 then String bs "r"
  else if Nat.ltb n 32 || Nat.eqb n 127 || (Nat.leb 128 n && Nat.leb n 160)
          || Nat.eqb n 173
  then String bs (String "x" (String (hex_digit (n / 16))
                               (String (hex_digit (n mod 16)) EmptyString)))
  else String c EmptyString.

Fixpoint repr_chars (q : ascii) (s : string) : string :=
  match s with
  | EmptyString => EmptyString
  | String c s' => repr_char q c ++ repr_chars q s'
  end.

Definition str_has (c : ascii) (s : string) : bool :=
  existsb (Ascii.eqb c) (list_ascii_of_string s).

(** [repr(s)] for a [str] whose code points are the characters of [s] (all
    below 256): single quotes, unless [s] holds a single quote and no
    double quote. *)
Definition py_repr (s : string) : string :=
  let q := if str_has sq s && negb (str_has dq s) then dq else sq in
  String q (repr_chars q s ++ String q EmptyString).

(** [_get_env_int]. *)
Definition get_env_int (env : Env) (name : string) (default : Z) : startup Z :=
  match env name with
  | None => Start default
  | Some val =>
      if String.eqb val "" then Start default else
      match int_of_str val with
      | Ok z => Start z
      | Raise _ => Exit ("Invalid int for " ++ name ++ "=" ++ py_repr val)
      end
  end.

(** [_get_env_float]. *)
Definition get_env_float (L : PyLib) (env : Env) (name : string)
  (default : spec_float) : startup spec_float :=
  match env name with
  | None => Start default
  | Some val =>
      if String.eqb val "" then Start default else
      match float_of_str L val with
      | Ok f => Start f
      | Raise _ => Exit ("Invalid float for " ++ name ++ "=" ++ py_repr val)
      end
  end.

(** The float literal [0.1]. *)
Definition default_error_rate : spec_float := SFdiv prec emax (Z2F 1) (Z2F 10).

Record GenConfig : Type := mkGenConfig {
  patient_count : Z;
  stream_interval : spec_float;
  error_rate : spec_float;
  error_mode : string;
  missing_field_style : string
}.

(** The configuration part of [main] in [patient_vitals.py], up to the
    creation of the publisher. *)
Definition generator_startup (L : PyLib) (env : Env) : startup GenConfig :=
  pc <-- get_env_int env "PATIENT_COUNT" 30 ;;;
  si <-- (match float_of_str L (getenv_default env "STREAM_INTERVAL" "1") with
          | Ok f => Start f
          | Raise e => Crash e
          end) ;;;
  er <-- get_env_float L env "ERROR_RATE" default_error_rate ;;;
  let em := str_lower (str_strip
              (let v := getenv_default env "ERROR_MODE" "mixed" in
               if String.eqb v "" then "mixed" else v)) in
  let mfs := str_lower (str_strip
              (let v := getenv_default env "MISSING_FIELD_STYLE" "delete" in
               if String.eqb v "" then "delete" else v)) in
  if pc <=? 0 then Exit "PATIENT_COUNT must be > 0" else
  if float_le si (Z2F 0) then Exit "STREAM_INTERVAL must be > 0" else
  if negb (float_le (Z2F 0) er && float_le er (Z2F 1)) then
    Exit "ERROR_RATE must be between 0.0 and 1.0" else
  if negb (existsb (String.eqb em) ("mixed" :: "none" :: modes)) then
    Exit "ERROR_MODE must be one of: mixed|none|missing_field|null_field|negative_value|out_of_range|bad_type" else
  if negb (existsb (String.eqb mfs) ["delete"; "null"]) then
    Exit "MISSING_FIELD_STYLE must be delete or null" else
  Start (mkGenConfig pc si er em mfs).

(** ** Concrete inputs *)

(** The float literal [98.6]. *)
Definition f98_6 : spec_float := SFdiv prec emax (Z2F 986) (Z2F 10).

(** The object [json.loads] returns for the end-to-end example payload of
    the specification. *)
Definition example_obj : list (string * json) :=
  [("event_ts", JStr "2024-01-01T00:00:00Z"); ("patient_id", JInt 5);
   ("heart_rate", JInt 80); ("temperature", JFloat f98_6);
   ("bp_diastolic", JInt 70); ("bp_systolic", JInt 120); ("spo2", JInt 97)]%string.

(** A library whose decoder and parser return a fixed value, and whose
    [float(str)] reads integers and [nan]; used to run the validator on a
    given parsed payload. *)
Definition float_of_str_int_nan (s : string) : result spec_float :=
  if String.eqb (str_lower (str_strip s)) "nan" then Ok S754_nan else
  match int_of_str s with
  | Ok z => float_of_int z
  | Raise e => Raise e
  end.

Definition lib_of (obj : json) : PyLib := {|
  decode_utf8 := fun _ => Ok "";
  json_loads := fun _ => Ok obj;
  float_of_str := float_of_str_int_nan
|}.

(** A record with its processing time replaced. *)
Definition with_ingest (t : Z) (r : VitalsRecord) : VitalsRecord :=
  mkVitals (event_ts r) (patient_id r) (heart_rate r) (temperature r)
    (bp_diastolic r) (bp_systolic r) (spo2 r) t.

(** [v] is a JSON number whose mathematical value lies in [[lo, hi]]. *)
Definition in_Z_interval (lo hi : Z) (v : json) : Prop :=
  match v with
  | JInt z => lo <= z <= hi
  | JFloat (S754_zero _) => lo <= 0 <= hi
  | JFloat (S754_finite s m e) =>
      let n := if s then Zneg m else Zpos m in
      if 0 <=? e then lo <= n * 2 ^ e <= hi
      else lo * 2 ^ (- e) <= n <= hi * 2 ^ (- e)
  | _ => False
  end.

(** [v] is a JSON integer in [[lo, hi]] or a JSON float between the floats
    [lo] and [hi] under IEEE-754 comparison. *)
Definition in_float_interval (lo hi : Z) (v : json) : Prop :=
  match v with
  | JInt z => lo <= z <= hi
  | JFloat f => float_le (Z2F lo) f = true /\ float_le f (Z2F hi) = true
  | _ => False
  end.

(** The bounds of the edge tests: each field at both ends of its interval,
    and one unit outside. *)
Definition edges_inside : list (string * json) :=
  [("patient_id", JInt 1); ("patient_id", JInt 10000);
   ("heart_rate", JInt 30); ("heart_rate", JInt 220);
   ("temperature", JFloat (Z2F 85)); ("temperature", JFloat (Z2F 110));
   ("temperature", JInt 85); ("temperature", JInt 110);
   ("bp_diastolic", JInt 30); ("bp_diastolic", JInt 150);
   ("bp_systolic", JInt 50); ("bp_systolic", JInt 250);
   ("spo2", JInt 50); ("spo2", JInt 100)].

Definition edges_outside : list (string * json) :=
  [("patient_id", JInt 0); ("patient_id", JInt 10001);
   ("heart_rate", JInt 29); ("heart_rate", JInt 221);
   ("temperature", JFloat (Z2F 84)); ("temperature", JFloat (Z2F 111));
   ("temperature", JInt 84); ("temperature", JInt 111);
   ("bp_diastolic", JInt 29); ("bp_diastolic", JInt 151);
   ("bp_systolic", JInt 49); ("bp_systolic", JInt 251);
   ("spo2", JInt 49); ("spo2", JInt 101)].

(** The number of rows [process] yields for a parsed payload. *)
Definition rows_yielded (L : PyLib) (now : Z) (obj : json) : nat :=
  match except_Exception (validate_obj L now obj) with
  | Ok rows => List.length rows
  | Raise _ => 0
  end.

(** Whether the generator's injected change sets [event_ts] to [None]. *)
Definition nulls_event_ts (error_mode missing_field_style mode_pick field_pick : string)
  : bool :=
  let mode := if String.eqb error_mode "mixed" then mode_pick else error_mode in
  (String.eqb mode "null_field" ||
   (String.eqb mode "missing_field" && negb (String.eqb missing_field_style "delete")))
  && String.eqb field_pick "event_ts".

(** An environment where [STREAM_INTERVAL] is [nan], [PROJECT_ID] is [demo]
    and [TOPIC_ID] is [vitals], and nothing else is set. *)
Definition nan_env : Env :=
  fun k => if String.eqb k "STREAM_INTERVAL" then Some "nan"
           else if String.eqb k "PROJECT_ID" then Some "demo"
           else if String.eqb k "TOPIC_ID" then Some "vitals" else None.

(** [nan_env] with [ERROR_RATE=nan] instead of [STREAM_INTERVAL=nan]. *)
Definition nan_rate_env : Env :=
  fun k => if String.eqb k "ERROR_RATE" then Some "nan"
           else if String.eqb k "PROJECT_ID" then Some "demo"
           else if String.eqb k "TOPIC_ID" then Some "vitals" else None.

(** ** More of the load generator *)

(** [gen_vitals(patient_id)]: the results of [datetime.now(...).isoformat()]
    and of the [random] draws are the arguments [now_iso], [heart_rate_draw],
    [temperature_draw] (the value of [round(random.uniform(96.5, 102.5), 1)]),
    [bp_systolic_draw], [bp_diastolic_draw] and [spo2_draw]. The dict keeps
    the source's key order. *)
Definition gen_vitals (pid : Z) (now_iso : string) (heart_rate_draw : Z)
  (temperature_draw : spec_float) (bp_systolic_draw bp_diastolic_draw spo2_draw : Z)
  : list (string * json) :=
  [("event_ts", JStr now_iso); ("patient_id", JInt pid);
   ("heart_rate", JInt heart_rate_draw); ("temperature", JFloat temperature_draw);
   ("bp_systolic", JInt bp_systolic_draw); ("bp_diastolic", JInt bp_diastolic_draw);
   ("spo2", JInt spo2_draw)].

(** The uncorrupted branch of the generator loop in [main]:
    [vitals["_is_error"] = False]. *)
Definition clean_payload (record : list (string * json)) : list (string * json) :=
  dict_set "_is_error" (JBool false) record.

(** The float literals [96.5] and [102.5]. *)
Definition f96_5 : spec_float := SFdiv prec emax (Z2F 193) (Z2F 2).
Definition f102_5 : spec_float := SFdiv prec emax (Z2F 205) (Z2F 2).

(** The float literal [220.5]. *)
Definition f220_5 : spec_float := SFdiv prec emax (Z2F 441) (Z2F 2).

(** [a or b] for an [os.getenv] result and a string: [None] and the empty
    string are falsy. *)
Definition env_or (v : option string) (rest : string) : string :=
  match v with
  | Some s => if String.eqb s "" then rest else s
  | None => rest
  end.

(** [publisher.topic_path(project, topic)] of the Pub/Sub client. *)
Definition topic_path (project topic : string) : string :=
  "projects/" ++ project ++ "/topics/" ++ topic.

(** [p.startswith("projects/") and "/topics/" in p]. *)
Definition is_full_topic (p : string) : bool :=
  str_prefix "projects/" p && str_contains p "/topics/".

(** The newline character. *)
Definition nl : string := String (ascii_of_nat 10) EmptyString.

(** [resolve_topic_path]. *)
Definition resolve_topic_path (env : Env) : startup string :=
  let project_id := env_or (env "PROJECT_ID") (env_or (env "GCP_PROJECT") "") in
  let topic_id := env_or (env "TOPIC_ID") (env_or (env "PUBSUB_TOPIC") "") in
  let full_topic := env_or (env "PUBSUB_TOPIC_FULL") "" in
  if is_full_topic topic_id then Start topic_id else
  if is_full_topic full_topic then Start full_topic else
  if String.eqb project_id "" || String.eqb topic_id "" then
    Exit ("Missing topic configuration." ++ nl ++
          "Set either:" ++ nl ++
          "  - PUBSUB_TOPIC=projects/<project>/topics/<topic>" ++ nl ++
          "OR" ++ nl ++
          "  - PROJECT_ID (or GCP_PROJECT) AND TOPIC_ID (topic short name)" ++ nl ++
          "Current values: PROJECT_ID=" ++ py_repr project_id ++
          ", TOPIC_ID/PUBSUB_TOPIC=" ++ py_repr topic_id)
  else Start (topic_path project_id topic_id).

(** [main] up to the loop: the configuration, [PublisherClient()] (its
    outcome is the argument [client]: it raises without credentials) and
    [resolve_topic_path]. *)
Definition main_startup (L : PyLib) (env : Env) (client : result unit)
  : startup (GenConfig * string) :=
  cfg <-- generator_startup L env ;;;
  match client with
  | Raise e => Crash e
  | Ok _ => tp <-- resolve_topic_path env ;;; Start (cfg, tp)
  end.

(** [min(a, b)] on floats: [b] only when [b < a]. *)
Definition py_min (a b : spec_float) : spec_float := if SFltb b a then b else a.

(** One pass of the [while True] loop of [main] once the payload is built:
    [publish] is the outcome of [publish_message] ([json.dumps],
    [publisher.publish] and [future.result]), [sleep] is [time.sleep]. The
    [except Exception] handler sleeps [min(stream_interval, 5)]; an exception
    raised there escapes the loop and ends the process. [Ok tt]: the loop
    goes on. (The [KeyboardInterrupt] branch is not modelled.) *)
Definition loop_iteration (sleep : spec_float -> result unit)
  (stream_interval : spec_float) (publish : result string) : result unit :=
  match (msg_id <- publish ;; sleep stream_interval) with
  | Ok _ => Ok tt
  | Raise e =>
      if is_Exception e then sleep (py_min stream_interval (Z2F 5)) else Raise e
  end.

(** [time.sleep] on the durations used below: [ValueError] for NaN and for
    negative durations. *)
Definition sleep_checked (x : spec_float) : result unit :=
  match x with
  | S754_nan => Raise ValueError
  | _ => if SFltb x (Z2F 0) then Raise ValueError else Ok tt
  end.

(** A validated row written back as a payload of JSON numbers. *)
Definition row_payload (r : VitalsRecord) : list (string * json) :=
  [("event_ts", event_ts r); ("patient_id", JInt (patient_id r));
   ("heart_rate", JInt (heart_rate r)); ("temperature", JFloat (temperature r));
   ("bp_diastolic", JInt (bp_diastolic r)); ("bp_systolic", JInt (bp_systolic r));
   ("spo2", JInt (spo2 r))].

(** [patient_ids = list(range(1, patient_count + 1))] in [main]. *)
Definition patient_ids (patient_count : Z) : list Z :=
  map Z.of_nat (seq 1 (Z.to_nat patient_count)).

(** One pass of the [while True] loop of [main] up to [publish_message]:
    the payload it publishes. The [random] draws are arguments:
    [choice_idx] is the index [random.choice(patient_ids)] picks, [u] is
    [random.random()], [mode_pick] and [field_pick] are the picks made inside
    [inject_error]; the others are those of [gen_vitals]. [None] when
    [choice_idx] is not an index of [patient_ids]. *)
Definition generator_payload (cfg : GenConfig) (choice_idx : nat) (now_iso : string)
  (hr : Z) (t : spec_float) (sys dia sp : Z) (u : spec_float)
  (mode_pick field_pick : string) : option (list (string * json)) :=
  match nth_error (patient_ids (patient_count cfg)) choice_idx with
  | None => None
  | Some pid =>
      let vitals := gen_vitals pid now_iso hr t sys dia sp in
      Some (if SFltb u (error_rate cfg)
            then corrupt_payload vitals (error_mode cfg) (missing_field_style cfg)
                   mode_pick field_pick
            else clean_payload vitals)
  end.

(** * Properties *)

(** ** Evaluation checks *)

Example f98_6_bits : f98_6 = S754_finite false 6938358175917670 (-46).
Proof. vm_compute. reflexivity. Qed.

Example example_accepted : forall L,
  validate_obj L 7 (JObj example_obj)
  = Ok [mkVitals (JStr "2024-01-01T00:00:00Z") 5 80 f98_6 70 120 97 7].
Proof. intros L. vm_compute. reflexivity. Qed.

Example int_of_str_ok : int_of_str " -1_000 " = Ok (-1000).
Proof. reflexivity. Qed.

Example int_of_str_bad : int_of_str "one-sixty" = Raise ValueError.
Proof. reflexivity. Qed.

(** ** Dict lemmas *)

Lemma dict_get_set (k k' : string) (v : json) (d : list (string * json)) :
  dict_get k (dict_set k' v d) = if String.eqb k k' then Some v else dict_get k d.
Proof.
  induction d as [|[k1 v1] d IH]; simpl.
  - reflexivity.
  - destruct (String.eqb k' k1) eqn:E1; simpl.
    + apply String.eqb_eq in E1; subst k1.
      destruct (String.eqb k k'); reflexivity.
    + rewrite IH. destruct (String.eqb k k1) eqn:E2, (String.eqb k k') eqn:E3;
        try reflexivity.
      apply String.eqb_eq in E2, E3; subst. rewrite String.eqb_refl in E1.
      discriminate.
Qed.

Lemma dict_get_pop (k k' : string) (d : list (string * json)) :
  dict_get k (dict_pop k' d) = if String.eqb k k' then None else dict_get k d.
Proof.
  unfold dict_pop.
  induction d as [|[k1 v1] d IH]; simpl.
  - destruct (String.eqb k k'); reflexivity.
  - destruct (String.eqb k' k1) eqn:E1; simpl.
    + apply String.eqb_eq in E1; subst k1. rewrite IH.
      destruct (String.eqb k k') eqn:E; reflexivity.
    + rewrite IH. destruct (String.eqb k k1) eqn:E2, (String.eqb k k') eqn:E3;
        try reflexivity.
      apply String.eqb_eq in E2, E3; subst. rewrite String.eqb_refl in E1.
      discriminate.
Qed.

Lemma py_all_in_obj (d : list (string * json)) (ks : list string) :
  py_all_in (JObj d) ks = Ok (forallb (fun k => dict_mem k d) ks).
Proof.
  induction ks as [|k ks IH]; simpl.
  - reflexivity.
  - destruct (dict_mem k d); simpl; [exact IH | reflexivity].
Qed.

Lemma py_all_in_missing (d : list (string * json)) (k : string) :
  In k required -> dict_get k d = None -> py_all_in (JObj d) required = Ok false.
Proof.
  intros Hin Hk. rewrite py_all_in_obj. f_equal.
  apply Bool.not_true_iff_false. intros Hall.
  rewrite forallb_forall in Hall. specialize (Hall k Hin).
  unfold dict_mem in Hall. rewrite Hk in Hall. discriminate.
Qed.

(** ** Running the validator *)

Lemma bind_Ok_inv {A B : Type} (m : result A) (k : A -> result B) (b : B) :
  bind m k = Ok b -> exists a, m = Ok a /\ k a = Ok b.
Proof. destruct m; simpl; [eauto | discriminate]. Qed.

(** What an accepted payload looks like: each field was found and coerced,
    each bound holds, and exactly one row is yielded. *)
Lemma validate_obj_Ok_inv (L : PyLib) (n : Z) (obj : json)
  (r : VitalsRecord) (rows : list VitalsRecord) :
  validate_obj L n obj = Ok (r :: rows) ->
  rows = [] /\ ingest_ts r = n /\
  py_all_in obj required = Ok true /\
  py_getitem obj "event_ts" = Ok (event_ts r) /\
  (exists v, py_getitem obj "patient_id" = Ok v /\ py_int v = Ok (patient_id r)) /\
  (exists v, py_getitem obj "heart_rate" = Ok v /\ py_int v = Ok (heart_rate r)) /\
  (exists v, py_getitem obj "temperature" = Ok v /\ py_float L v = Ok (temperature r)) /\
  (exists v, py_getitem obj "bp_diastolic" = Ok v /\ py_int v = Ok (bp_diastolic r)) /\
  (exists v, py_getitem obj "bp_systolic" = Ok v /\ py_int v = Ok (bp_systolic r)) /\
  (exists v, py_getitem obj "spo2" = Ok v /\ py_int v = Ok (spo2 r)) /\
  1 <= patient_id r <= 10000 /\ 30 <= heart_rate r <= 220 /\
  float_le (Z2F 85) (temperature r) = true /\ float_le (temperature r) (Z2F 110) = true /\
  30 <= bp_diastolic r <= 150 /\ 50 <= bp_systolic r <= 250 /\ 50 <= spo2 r <= 100.
Proof.
  intros H. unfold validate_obj in H.
  destruct (py_all_in obj required) as [ok|] eqn:Hall; cbn [bind] in H;
    [|discriminate H].
  destruct ok; cbn [negb] in H; [|discriminate H].
  apply bind_Ok_inv in H as [ev [Hev H]].
  apply bind_Ok_inv in H as [pid [Hpid H]].
  apply bind_Ok_inv in H as [hr [Hhr H]].
  apply bind_Ok_inv in H as [tmp [Htmp H]].
  apply bind_Ok_inv in H as [dia [Hdia H]].
  apply bind_Ok_inv in H as [sys [Hsys H]].
  apply bind_Ok_inv in H as [sp [Hsp H]].
  apply bind_Ok_inv in Hpid as [vp [? ?]].
  apply bind_Ok_inv in Hhr as [vh [? ?]].
  apply bind_Ok_inv in Htmp as [vt [? ?]].
  apply bind_Ok_inv in Hdia as [vd [? ?]].
  apply bind_Ok_inv in Hsys as [vs [? ?]].
  apply bind_Ok_inv in Hsp as [vsp [? ?]].
  repeat match type of H with
  | context [if ?c then _ else _] =>
      let E := fresh "C" in destruct c eqn:E; cbv iota in H; [discriminate H|]
  end.
  injection H as <- <-.
  repeat match goal with
  | E : negb _ = false |- _ => apply negb_false_iff in E
  | E : _ && _ = true |- _ => apply andb_true_iff in E as [? ?]
  | E : (_ <? _) = true |- _ => apply Z.ltb_lt in E
  | E : (_ <=? _) = true |- _ => apply Z.leb_le in E
  end.
  cbn [patient_id heart_rate temperature bp_diastolic bp_systolic spo2 event_ts ingest_ts].
  repeat split; eauto; lia.
Qed.

Lemma py_all_in_present (d : list (string * json)) :
  (forall k, In k required -> dict_get k d <> None) ->
  py_all_in (JObj d) required = Ok true.
Proof.
  intros H. rewrite py_all_in_obj. f_equal.
  apply forallb_forall. intros k Hk. unfold dict_mem.
  specialize (H k Hk). destruct (dict_get k d); [reflexivity | congruence].
Qed.

Ltac bool_facts :=
  repeat match goal with
  | E : negb _ = true |- _ => apply negb_true_iff in E
  | E : negb _ = false |- _ => apply negb_false_iff in E
  | E : _ && _ = true |- _ => apply andb_true_iff in E as [? ?]
  | E : _ && _ = false |- _ => apply andb_false_iff in E as [?|?]
  | E : (_ <? _) = true |- _ => apply Z.ltb_lt in E
  | E : (_ <? _) = false |- _ => apply Z.ltb_ge in E
  | E : (_ <=? _) = true |- _ => apply Z.leb_le in E
  | E : (_ <=? _) = false |- _ => apply Z.leb_gt in E
  end.

(** The converse of [validate_obj_Ok_inv]: a payload whose fields are found,
    coerced and within bounds yields its row. *)
Lemma validate_obj_accept (L : PyLib) (n : Z) (obj : json)
  (ev vp vh vt vd vs vsp : json) (pid hr dia sys sp : Z) (tmp : spec_float) :
  py_all_in obj required = Ok true ->
  py_getitem obj "event_ts" = Ok ev ->
  py_getitem obj "patient_id" = Ok vp -> py_getitem obj "heart_rate" = Ok vh ->
  py_getitem obj "temperature" = Ok vt -> py_getitem obj "bp_diastolic" = Ok vd ->
  py_getitem obj "bp_systolic" = Ok vs -> py_getitem obj "spo2" = Ok vsp ->
  py_int vp = Ok pid -> py_int vh = Ok hr -> py_float L vt = Ok tmp ->
  py_int vd = Ok dia -> py_int vs = Ok sys -> py_int vsp = Ok sp ->
  1 <= pid <= 10000 -> 30 <= hr <= 220 ->
  float_le (Z2F 85) tmp = true -> float_le tmp (Z2F 110) = true ->
  30 <= dia <= 150 -> 50 <= sys <= 250 -> 50 <= sp <= 100 ->
  validate_obj L n obj = Ok [mkVitals ev pid hr tmp dia sys sp n].
Proof.
  intros Hall Hev Hvp Hvh Hvt Hvd Hvs Hvsp Hp Hh Ht Hd Hs Hsp
    Rp Rh Rt1 Rt2 Rd Rs Rsp.
  unfold validate_obj.
  rewrite Hall, Hev, Hvp, Hvh, Hvt, Hvd, Hvs, Hvsp; cbn [bind negb].
  rewrite Hp, Hh, Ht, Hd, Hs, Hsp; cbn [bind].
  rewrite Rt1, Rt2; cbn [andb negb].
  repeat match goal with
  | |- context [if ?c then _ else _] =>
      let E := fresh "C" in destruct c eqn:E; cbv iota;
      [bool_facts; exfalso; lia |]
  end.
  reflexivity.
Qed.

Lemma py_getitem_obj (d : list (string * json)) (k : string) (v : json) :
  dict_get k d = Some v -> py_getitem (JObj d) k = Ok v.
Proof. intros H. simpl. rewrite H. reflexivity. Qed.

(** [int(v)] of a JSON number in a nonnegative interval succeeds within it. *)
Lemma py_int_in_interval (lo hi : Z) (v : json) :
  0 <= lo -> in_Z_interval lo hi v -> exists z, py_int v = Ok z /\ lo <= z <= hi.
Proof.
  intros Hlo Hv. destruct v as [| | z | f | | |]; simpl in Hv; try contradiction.
  - exists z. auto.
  - destruct f as [s | s | | s m e]; simpl in Hv; try contradiction.
    + exists 0. auto.
    + simpl. destruct (0 <=? e) eqn:He.
      * eexists; split; [reflexivity | exact Hv].
      * apply Z.leb_gt in He.
        assert (Hp : 0 < 2 ^ (- e)) by (apply Z.pow_pos_nonneg; lia).
        destruct s.
        -- exfalso. pose proof (Z.mul_nonneg_nonneg lo (2 ^ (- e)) Hlo (Z.lt_le_incl _ _ Hp)).
           pose proof (Pos2Z.neg_is_neg m). lia.
        -- eexists; split; [reflexivity|].
           rewrite Z.quot_div_nonneg by lia.
           split.
           ++ apply Z.div_le_lower_bound; lia.
           ++ apply Z.div_le_upper_bound; lia.
Qed.

(** [float(z)] for each integer [z] from 85 to 110, checked by evaluation. *)
Lemma float_of_int_85_110 :
  forallb (fun i =>
    match float_of_int (85 + Z.of_nat i) with
    | Ok f => float_le (Z2F 85) f && float_le f (Z2F 110)
    | Raise _ => false
    end) (seq 0 26) = true.
Proof. vm_compute. reflexivity. Qed.

(** [float(v)] of a JSON number between 85 and 110 succeeds within them. *)
Lemma py_float_in_interval (L : PyLib) (v : json) :
  in_float_interval 85 110 v ->
  exists f, py_float L v = Ok f /\
    float_le (Z2F 85) f = true /\ float_le f (Z2F 110) = true.
Proof.
  destruct v as [| | z | f | | |]; simpl; try contradiction.
  - intros Hz.
    pose proof float_of_int_85_110 as Hall.
    rewrite forallb_forall in Hall.
    specialize (Hall (Z.to_nat (z - 85))).
    rewrite in_seq in Hall.
    replace (85 + Z.of_nat (Z.to_nat (z - 85))) with z in Hall by lia.
    destruct (float_of_int z) as [f|e].
    + exists f. split; [reflexivity|]. apply andb_true_iff, Hall. lia.
    + discriminate (Hall ltac:(lia)).
  - intros [H1 H2]. exists f. auto.
Qed.

(** After decoding and parsing, [process] is [validate_obj] under the
    [except Exception] handler. *)
Lemma process_parsed (L : PyLib) (now : Z) (b : list Byte.byte) (s : string)
  (obj : json) :
  decode_utf8 L b = Ok s -> json_loads L s = Ok obj ->
  process L now b = except_Exception (validate_obj L now obj).
Proof.
  intros Hd Hl. unfold process, process_try. rewrite Hd. cbn [bind].
  rewrite Hl. reflexivity.
Qed.

Lemma required_present (d : list (string * json)) (ev vp vh vt vd vs vsp : json) :
  dict_get "event_ts" d = Some ev -> dict_get "patient_id" d = Some vp ->
  dict_get "heart_rate" d = Some vh -> dict_get "temperature" d = Some vt ->
  dict_get "bp_diastolic" d = Some vd -> dict_get "bp_systolic" d = Some vs ->
  dict_get "spo2" d = Some vsp ->
  py_all_in (JObj d) required = Ok true.
Proof.
  intros H1 H2 H3 H4 H5 H6 H7. apply py_all_in_present.
  intros k Hk. simpl in Hk.
  destruct Hk as [<-|[<-|[<-|[<-|[<-|[<-|[<-|[]]]]]]]]; congruence.
Qed.

(** ** C1: in-range payloads are accepted *)

(** C1. A payload that decodes, parses to an object with all seven required
    keys (other keys are ignored) and whose six numeric values are JSON
    numbers inside their closed intervals is accepted: exactly one row is
    yielded, its fields are the coerced values, [event_ts] is copied, and
    [ingest_ts] is the clock reading taken on entry, so it is not earlier
    than any time [t0] at or before the call's start. *)
Theorem validate_accepts_in_range (L : PyLib) (t0 now : Z) (b : list Byte.byte)
  (s : string) (d : list (string * json)) (ev vp vh vt vd vs vsp : json) :
  decode_utf8 L b = Ok s -> json_loads L s = Ok (JObj d) ->
  dict_get "event_ts" d = Some ev -> dict_get "patient_id" d = Some vp ->
  dict_get "heart_rate" d = Some vh -> dict_get "temperature" d = Some vt ->
  dict_get "bp_diastolic" d = Some vd -> dict_get "bp_systolic" d = Some vs ->
  dict_get "spo2" d = Some vsp ->
  in_Z_interval 1 10000 vp -> in_Z_interval 30 220 vh ->
  in_float_interval 85 110 vt -> in_Z_interval 30 150 vd ->
  in_Z_interval 50 250 vs -> in_Z_interval 50 100 vsp ->
  t0 <= now ->
  exists r, process L now b = Ok [r] /\
    event_ts r = ev /\ py_int vp = Ok (patient_id r) /\
    py_int vh = Ok (heart_rate r) /\ py_float L vt = Ok (temperature r) /\
    py_int vd = Ok (bp_diastolic r) /\ py_int vs = Ok (bp_systolic r) /\
    py_int vsp = Ok (spo2 r) /\ ingest_ts r = now /\ t0 <= ingest_ts r.
Proof.
  intros Hdec Hload H1 H2 H3 H4 H5 H6 H7 Rp Rh Rt Rd Rs Rsp Ht0.
  destruct (py_int_in_interval 1 10000 vp ltac:(lia) Rp) as [pid [Ep Bp]].
  destruct (py_int_in_interval 30 220 vh ltac:(lia) Rh) as [hr [Eh Bh]].
  destruct (py_float_in_interval L vt Rt) as [tmp [Et [Bt1 Bt2]]].
  destruct (py_int_in_interval 30 150 vd ltac:(lia) Rd) as [dia [Ed Bd]].
  destruct (py_int_in_interval 50 250 vs ltac:(lia) Rs) as [sys [Es Bs]].
  destruct (py_int_in_interval 50 100 vsp ltac:(lia) Rsp) as [sp [Esp Bsp]].
  exists (mkVitals ev pid hr tmp dia sys sp now).
  rewrite (process_parsed L now b s (JObj d) Hdec Hload).
  pose proof (required_present d ev vp vh vt vd vs vsp H1 H2 H3 H4 H5 H6 H7) as Hall.
  rewrite (validate_obj_accept L now (JObj d) ev vp vh vt vd vs vsp pid hr dia sys sp tmp);
    auto using py_getitem_obj.
  cbn. repeat split; auto.
Qed.

Lemma validate_accepts_in_range_witness :
  (exists r, process (lib_of (JObj example_obj)) 7 [] = Ok [r] /\
    event_ts r = JStr "2024-01-01T00:00:00Z" /\ py_int (JInt 5) = Ok (patient_id r) /\
    py_int (JInt 80) = Ok (heart_rate r) /\
    py_float (lib_of (JObj example_obj)) (JFloat f98_6) = Ok (temperature r) /\
    py_int (JInt 70) = Ok (bp_diastolic r) /\ py_int (JInt 120) = Ok (bp_systolic r) /\
    py_int (JInt 97) = Ok (spo2 r) /\ ingest_ts r = 7 /\ 0 <= ingest_ts r) /\
  process (lib_of (JObj example_obj)) 7 []
  = Ok [mkVitals (JStr "2024-01-01T00:00:00Z") 5 80 f98_6 70 120 97 7].
Proof.
  split.
  - apply (validate_accepts_in_range (lib_of (JObj example_obj)) 0 7 [] ""
             example_obj (JStr "2024-01-01T00:00:00Z") (JInt 5) (JInt 80)
             (JFloat f98_6) (JInt 70) (JInt 120) (JInt 97));
      try reflexivity; try (simpl; lia).
    vm_compute. split; reflexivity.
  - vm_compute. reflexivity.
Defined.

(** ** C2: accepted rows are complete and in range *)

(** C2. Whatever bytes [process] receives, if it yields rows then it yields
    exactly one, a full [VitalsRecord] (all eight fields, by its type) whose
    six numeric fields are within their closed intervals (the temperature
    under IEEE-754 comparison with 85.0 and 110.0) and whose [ingest_ts] is
    the clock reading. *)
Theorem validate_output_complete (L : PyLib) (now : Z) (b : list Byte.byte)
  (rows : list VitalsRecord) (r : VitalsRecord) :
  process L now b = Ok rows -> In r rows ->
  rows = [r] /\
  1 <= patient_id r <= 10000 /\ 30 <= heart_rate r <= 220 /\
  float_le (Z2F 85) (temperature r) = true /\
  float_le (temperature r) (Z2F 110) = true /\
  30 <= bp_diastolic r <= 150 /\ 50 <= bp_systolic r <= 250 /\
  50 <= spo2 r <= 100 /\ ingest_ts r = now.
Proof.
  intros H Hin. unfold process, process_try in H.
  destruct (decode_utf8 L b) as [raw|e]; cbn [bind except_Exception] in H;
    [|destruct (is_Exception e); inversion H; subst; contradiction].
  destruct (json_loads L raw) as [obj|e]; cbn [bind except_Exception] in H;
    [|destruct (is_Exception e); inversion H; subst; contradiction].
  destruct (validate_obj L now obj) as [rows'|e] eqn:Hv; cbn [except_Exception] in H;
    [|destruct (is_Exception e); inversion H; subst; contradiction].
  injection H as <-.
  destruct rows' as [|r' rows']; [contradiction|].
  destruct (validate_obj_Ok_inv L now obj r' rows' Hv)
    as (-> & Hing & _ & _ & _ & _ & _ & _ & _ & _ & Bp & Bh & Bt1 & Bt2 & Bd & Bs & Bsp).
  destruct Hin as [<-|[]].
  repeat split; auto; lia.
Qed.

Lemma validate_output_complete_witness :
  [mkVitals (JStr "2024-01-01T00:00:00Z") 5 80 f98_6 70 120 97 7]
    = [mkVitals (JStr "2024-01-01T00:00:00Z") 5 80 f98_6 70 120 97 7] /\
  1 <= 5 <= 10000 /\ 30 <= 80 <= 220 /\ float_le (Z2F 85) f98_6 = true /\
  float_le f98_6 (Z2F 110) = true /\ 30 <= 70 <= 150 /\ 50 <= 120 <= 250 /\
  50 <= 97 <= 100 /\ 7 = 7.
Proof.
  apply (validate_output_complete (lib_of (JObj example_obj)) 7 []
           [mkVitals (JStr "2024-01-01T00:00:00Z") 5 80 f98_6 70 120 97 7]).
  - vm_compute. reflexivity.
  - left. reflexivity.
Defined.

(** ** C10: [event_ts] is never inspected *)

(** C10. [event_ts] is neither coerced nor checked: whatever JSON value it
    holds, a payload whose six numeric fields coerce to in-range values is
    accepted, and the row's [event_ts] is that value unchanged. *)
Theorem event_ts_passed_verbatim (L : PyLib) (now : Z) (b : list Byte.byte)
  (s : string) (d : list (string * json)) (ev vp vh vt vd vs vsp : json)
  (pid hr dia sys sp : Z) (tmp : spec_float) :
  decode_utf8 L b = Ok s -> json_loads L s = Ok (JObj d) ->
  dict_get "event_ts" d = Some ev -> dict_get "patient_id" d = Some vp ->
  dict_get "heart_rate" d = Some vh -> dict_get "temperature" d = Some vt ->
  dict_get "bp_diastolic" d = Some vd -> dict_get "bp_systolic" d = Some vs ->
  dict_get "spo2" d = Some vsp ->
  py_int vp = Ok pid -> py_int vh = Ok hr -> py_float L vt = Ok tmp ->
  py_int vd = Ok dia -> py_int vs = Ok sys -> py_int vsp = Ok sp ->
  1 <= pid <= 10000 -> 30 <= hr <= 220 ->
  float_le (Z2F 85) tmp = true -> float_le tmp (Z2F 110) = true ->
  30 <= dia <= 150 -> 50 <= sys <= 250 -> 50 <= sp <= 100 ->
  exists r, process L now b = Ok [r] /\ event_ts r = ev.
Proof.
  intros Hdec Hload H1 H2 H3 H4 H5 H6 H7 Ep Eh Et Ed Es Esp Bp Bh Bt1 Bt2 Bd Bs Bsp.
  exists (mkVitals ev pid hr tmp dia sys sp now). split; [|reflexivity].
  rewrite (process_parsed L now b s (JObj d) Hdec Hload).
  pose proof (required_present d ev vp vh vt vd vs vsp H1 H2 H3 H4 H5 H6 H7) as Hall.
  rewrite (validate_obj_accept L now (JObj d) ev vp vh vt vd vs vsp pid hr dia sys sp tmp);
    auto using py_getitem_obj.
Qed.

(** The example payload with [event_ts] replaced by an array holding [null]. *)
Lemma event_ts_passed_verbatim_witness :
  exists r, process (lib_of (JObj (dict_set "event_ts" (JArr [JNull]) example_obj))) 0 []
            = Ok [r] /\ event_ts r = JArr [JNull].
Proof.
  apply (event_ts_passed_verbatim
           (lib_of (JObj (dict_set "event_ts" (JArr [JNull]) example_obj))) 0 [] ""
           (dict_set "event_ts" (JArr [JNull]) example_obj)
           (JArr [JNull]) (JInt 5) (JInt 80) (JFloat f98_6) (JInt 70) (JInt 120) (JInt 97)
           5 80 70 120 97 f98_6);
    try reflexivity; try lia; vm_compute; reflexivity.
Defined.

(** ** Dropped payloads *)

(** The handler turns every exception of the [try] block into no output. *)
Lemma except_Exception_Ok (r : result (list VitalsRecord)) :
  exists rows, except_Exception r = Ok rows.
Proof. destruct r as [rows|e]; [exists rows; reflexivity | destruct e; eexists; reflexivity]. Qed.

(** A payload that cannot yield a row yields nothing, exceptions included. *)
Lemma validate_obj_drop (L : PyLib) (n : Z) (obj : json) :
  (forall r rows, validate_obj L n obj <> Ok (r :: rows)) ->
  except_Exception (validate_obj L n obj) = Ok [].
Proof.
  intros H. destruct (validate_obj L n obj) as [[|r rows]|e] eqn:E.
  - reflexivity.
  - exfalso. exact (H r rows eq_refl).
  - destruct e; reflexivity.
Qed.

(** A JSON value other than an object yields nothing: [k in obj] raises or
    answers, and [obj[k]] raises. *)
Lemma validate_non_object (L : PyLib) (n : Z) (v : json) :
  (forall d, v <> JObj d) -> except_Exception (validate_obj L n v) = Ok [].
Proof.
  intros Hv.
  assert (Hg : forall k, py_getitem v k = Raise TypeError).
  { intros k. destruct v; try reflexivity. exfalso. eapply Hv. reflexivity. }
  unfold validate_obj.
  destruct (py_all_in v required) as [[|]|e]; cbn [bind negb].
  - rewrite Hg. reflexivity.
  - reflexivity.
  - destruct e; reflexivity.
Qed.

(** [int(None)], [int([..])], [int({..})] and their [float] versions raise
    [TypeError]; [int(True)] is 1 and [int(False)] is 0. *)
Lemma py_coercion_cases (L : PyLib) :
  (forall v, (v = JNull \/ (exists l, v = JArr l) \/ (exists d, v = JObj d)) ->
     py_int v = Raise TypeError /\ py_float L v = Raise TypeError) /\
  py_int (JBool true) = Ok 1 /\ py_int (JBool false) = Ok 0.
Proof.
  split; [|split; reflexivity].
  intros v [->|[[l ->]|[d ->]]]; split; reflexivity.
Qed.

(** ** C5: a missing key drops the payload *)

(** C5. If any of the seven required keys is absent from the parsed object,
    [process] yields nothing, whatever the other values are. *)
Theorem missing_key_dropped (L : PyLib) (now : Z) (b : list Byte.byte) (s : string)
  (d : list (string * json)) (k : string) :
  decode_utf8 L b = Ok s -> json_loads L s = Ok (JObj d) ->
  In k required -> dict_get k d = None ->
  process L now b = Ok [].
Proof.
  intros Hdec Hload Hk Hnone.
  rewrite (process_parsed L now b s (JObj d) Hdec Hload).
  unfold validate_obj. rewrite (py_all_in_missing d k Hk Hnone). reflexivity.
Qed.

Lemma missing_key_dropped_witness :
  process (lib_of (JObj (dict_pop "heart_rate" example_obj))) 0 [] = Ok [].
Proof.
  apply (missing_key_dropped (lib_of (JObj (dict_pop "heart_rate" example_obj))) 0 [] ""
           (dict_pop "heart_rate" example_obj) "heart_rate");
    try reflexivity.
  simpl. tauto.
Defined.

(** ** C6: undecodable, unparsable and non-object inputs *)

(** C6. Bytes that do not decode, text that does not parse, and JSON values
    that are not objects all yield nothing; and for every input [process]
    returns normally, so no exception reaches the caller. *)
Theorem malformed_input_dropped (L : PyLib) (now : Z) (b : list Byte.byte) :
  (forall e, decode_utf8 L b = Raise e -> process L now b = Ok []) /\
  (forall s e, decode_utf8 L b = Ok s -> json_loads L s = Raise e ->
     process L now b = Ok []) /\
  (forall s v, decode_utf8 L b = Ok s -> json_loads L s = Ok v ->
     (forall d, v <> JObj d) -> process L now b = Ok []) /\
  (exists rows, process L now b = Ok rows).
Proof.
  unfold process, process_try. repeat split.
  - intros e He. rewrite He. destruct e; reflexivity.
  - intros s e Hs He. rewrite Hs. cbn [bind]. rewrite He. destruct e; reflexivity.
  - intros s v Hs Hv Hobj. rewrite Hs. cbn [bind]. rewrite Hv. cbn [bind].
    exact (validate_non_object L now v Hobj).
  - apply except_Exception_Ok.
Qed.

(** ** Replacing one field *)

Lemma py_getitem_obj_inv (d : list (string * json)) (k : string) (v : json) :
  py_getitem (JObj d) k = Ok v -> dict_get k d = Some v.
Proof. simpl. destruct (dict_get k d); congruence. Qed.

Lemma validate_obj_ext (L : PyLib) (n : Z) (d1 d2 : list (string * json)) :
  (forall k, In k required -> dict_get k d1 = dict_get k d2) ->
  validate_obj L n (JObj d1) = validate_obj L n (JObj d2).
Proof.
  intros H. unfold validate_obj. rewrite !py_all_in_obj.
  cbn [forallb required py_getitem]. unfold dict_mem.
  rewrite !H by (simpl; tauto). reflexivity.
Qed.

Lemma py_getitem_set (d : list (string * json)) (k key : string) (v : json) :
  py_getitem (JObj (dict_set k v d)) key
  = if String.eqb key k then Ok v else py_getitem (JObj d) key.
Proof. simpl. rewrite dict_get_set. destruct (String.eqb key k); reflexivity. Qed.

Lemma py_all_in_keys (d : list (string * json)) :
  py_all_in (JObj d) required = Ok true ->
  forall key, In key required -> dict_get key d <> None.
Proof.
  intros H key Hk. rewrite py_all_in_obj in H.
  assert (H' : forallb (fun k => dict_mem k d) required = true) by congruence.
  clear H. rename H' into H. rewrite forallb_forall in H. specialize (H key Hk). unfold dict_mem in H.
  destruct (dict_get key d); congruence.
Qed.

Lemma py_all_in_set (d : list (string * json)) (k : string) (v : json) :
  (forall key, In key required -> dict_get key d <> None) ->
  py_all_in (JObj (dict_set k v d)) required = Ok true.
Proof.
  intros H. apply py_all_in_present. intros key Hk. rewrite dict_get_set.
  destruct (String.eqb key k); [discriminate | auto].
Qed.

(** The validator sees a payload only through the presence check, the
    [event_ts] value, and the outcome of each coercion. *)
Lemma validate_obj_same_coercions (L : PyLib) (n : Z) (o1 o2 : json) :
  py_all_in o1 required = py_all_in o2 required ->
  py_getitem o1 "event_ts" = py_getitem o2 "event_ts" ->
  (forall key, In key ["patient_id"; "heart_rate"; "bp_diastolic"; "bp_systolic"; "spo2"] ->
     (v <- py_getitem o1 key ;; py_int v) = (v <- py_getitem o2 key ;; py_int v)) ->
  (v <- py_getitem o1 "temperature" ;; py_float L v)
  = (v <- py_getitem o2 "temperature" ;; py_float L v) ->
  validate_obj L n o1 = validate_obj L n o2.
Proof.
  intros Ha He Hi Ht. unfold validate_obj.
  rewrite Ha, He, Ht, (Hi "patient_id"), (Hi "heart_rate"), (Hi "bp_diastolic"),
    (Hi "bp_systolic"), (Hi "spo2") by (simpl; tauto).
  reflexivity.
Qed.

(** Replacing one required field of an accepted payload gives the same
    result as replacing it in the payload of JSON numbers of its row. *)
Lemma validate_obj_row_payload (L : PyLib) (n : Z) (d : list (string * json))
  (r : VitalsRecord) (k : string) (v : json) :
  validate_obj L n (JObj d) = Ok [r] -> In k required ->
  validate_obj L n (JObj (dict_set k v d))
  = validate_obj L n (JObj (dict_set k v (row_payload r))).
Proof.
  intros H Hk.
  destruct (validate_obj_Ok_inv L n (JObj d) r [] H)
    as (_ & _ & Hall & Gev & [vp [Gp Ep]] & [vh [Gh Eh]] & [vt [Gt Et]] &
        [vd [Gd Ed]] & [vs [Gs Es]] & [vsp [Gsp Esp]] & _).
  apply validate_obj_same_coercions.
  - rewrite !py_all_in_set; [reflexivity | |].
    + intros key Hkey. simpl in Hkey.
      destruct Hkey as [<-|[<-|[<-|[<-|[<-|[<-|[<-|[]]]]]]]]; discriminate.
    + exact (py_all_in_keys d Hall).
  - rewrite !py_getitem_set. destruct (String.eqb "event_ts" k); [reflexivity|].
    rewrite Gev. reflexivity.
  - intros key Hkey. rewrite !py_getitem_set. destruct (String.eqb key k); [reflexivity|].
    simpl in Hkey. destruct Hkey as [<-|[<-|[<-|[<-|[<-|[]]]]]].
    + rewrite Gp. cbn [bind]. rewrite Ep. reflexivity.
    + rewrite Gh. cbn [bind]. rewrite Eh. reflexivity.
    + rewrite Gd. cbn [bind]. rewrite Ed. reflexivity.
    + rewrite Gs. cbn [bind]. rewrite Es. reflexivity.
    + rewrite Gsp. cbn [bind]. rewrite Esp. reflexivity.
  - rewrite !py_getitem_set. destruct (String.eqb "temperature" k); [reflexivity|].
    rewrite Gt. cbn [bind]. rewrite Et. reflexivity.
Qed.

(** A boolean in one of the six coerced fields is read as the integer 1 or
    0: [int(True)] is 1 and [float(True)] is [1.0], as for the integer 1. *)
Lemma validate_obj_bool_as_int (L : PyLib) (n : Z) (d : list (string * json))
  (k : string) (bb : bool) :
  In k ["patient_id"; "heart_rate"; "temperature"; "bp_diastolic"; "bp_systolic"; "spo2"] ->
  dict_get k d = Some (JBool bb) ->
  validate_obj L n (JObj d)
  = validate_obj L n (JObj (dict_set k (JInt (if bb then 1 else 0)) d)).
Proof.
  intros Hk Hd.
  assert (Hmem : forall key, dict_mem key (dict_set k (JInt (if bb then 1 else 0)) d)
                             = dict_mem key d).
  { intros key. unfold dict_mem. rewrite dict_get_set.
    destruct (String.eqb key k) eqn:E; [|reflexivity].
    apply String.eqb_eq in E. subst key. rewrite Hd. reflexivity. }
  apply validate_obj_same_coercions.
  - rewrite !py_all_in_obj. cbn [forallb required]. rewrite !Hmem. reflexivity.
  - rewrite py_getitem_set. destruct (String.eqb "event_ts" k) eqn:E; [|reflexivity].
    apply String.eqb_eq in E. subst k. simpl in Hk. intuition discriminate.
  - intros key Hkey. rewrite py_getitem_set. destruct (String.eqb key k) eqn:E; [|reflexivity].
    apply String.eqb_eq in E. subst key. cbn [py_getitem]. rewrite Hd.
    destruct bb; reflexivity.
  - rewrite py_getitem_set. destruct (String.eqb "temperature" k) eqn:E; [|reflexivity].
    apply String.eqb_eq in E. subst k. cbn [py_getitem]. rewrite Hd.
    destruct bb; reflexivity.
Qed.

Lemma rows_yielded_one (L : PyLib) (n : Z) (o : json) (x : VitalsRecord) :
  validate_obj L n o = Ok [x] -> rows_yielded L n o = 1%nat.
Proof. intros H. unfold rows_yielded. rewrite H. reflexivity. Qed.

Lemma rows_yielded_zero (L : PyLib) (n : Z) (o : json) :
  (forall r rows, validate_obj L n o <> Ok (r :: rows)) -> rows_yielded L n o = 0%nat.
Proof. intros H. unfold rows_yielded. rewrite validate_obj_drop by exact H. reflexivity. Qed.

(** ** C3: coercion failures drop the payload *)

(** C3 (amended). For a payload that decodes and parses to an object [d]:
    when every required key is present and [int()] of one of the five
    integer fields or [float()] of the temperature raises, [process] yields
    nothing; a boolean in one of those six fields is not a failure but is
    read as the integer 1 or 0, which then goes through the range checks;
    and any row yielded carries [d]'s [event_ts] value unchanged. *)
Theorem coercion_failure_dropped (L : PyLib) (now : Z) (b : list Byte.byte)
  (s : string) (d : list (string * json)) :
  decode_utf8 L b = Ok s -> json_loads L s = Ok (JObj d) ->
  (forall ev vp vh vt vd vs vsp : json,
     dict_get "event_ts" d = Some ev -> dict_get "patient_id" d = Some vp ->
     dict_get "heart_rate" d = Some vh -> dict_get "temperature" d = Some vt ->
     dict_get "bp_diastolic" d = Some vd -> dict_get "bp_systolic" d = Some vs ->
     dict_get "spo2" d = Some vsp ->
     (exists e, py_int vp = Raise e \/ py_int vh = Raise e \/ py_float L vt = Raise e \/
                py_int vd = Raise e \/ py_int vs = Raise e \/ py_int vsp = Raise e) ->
     process L now b = Ok []) /\
  (forall (k : string) (bb : bool),
     In k ["patient_id"; "heart_rate"; "temperature"; "bp_diastolic"; "bp_systolic"; "spo2"] ->
     dict_get k d = Some (JBool bb) ->
     process L now b
     = except_Exception
         (validate_obj L now (JObj (dict_set k (JInt (if bb then 1 else 0)) d)))) /\
  (forall (r : VitalsRecord) (rows : list VitalsRecord),
     process L now b = Ok (r :: rows) -> dict_get "event_ts" d = Some (event_ts r)).
Proof.
  intros Hdec Hload.
  pose proof (process_parsed L now b s (JObj d) Hdec Hload) as Hp.
  split; [|split].
  - intros ev vp vh vt vd vs vsp H1 H2 H3 H4 H5 H6 H7 [e He].
    rewrite Hp. apply validate_obj_drop. intros r rows Hv.
    destruct (validate_obj_Ok_inv L now (JObj d) r rows Hv)
      as (_ & _ & _ & _ & [vp' [Gp Ep]] & [vh' [Gh Eh]] & [vt' [Gt Et]] &
          [vd' [Gd Ed]] & [vs' [Gs Es]] & [vsp' [Gsp Esp]] & _).
    simpl in Gp, Gh, Gt, Gd, Gs, Gsp.
    rewrite H2 in Gp. rewrite H3 in Gh. rewrite H4 in Gt.
    rewrite H5 in Gd. rewrite H6 in Gs. rewrite H7 in Gsp.
    injection Gp as <-. injection Gh as <-. injection Gt as <-.
    injection Gd as <-. injection Gs as <-. injection Gsp as <-.
    destruct He as [He|[He|[He|[He|[He|He]]]]]; congruence.
  - intros k bb Hk Hd. rewrite Hp, (validate_obj_bool_as_int L now d k bb Hk Hd).
    reflexivity.
  - intros r rows H. rewrite Hp in H.
    destruct (validate_obj L now (JObj d)) as [rows'|e] eqn:Hv.
    + cbn [except_Exception] in H. injection H as ->.
      destruct (validate_obj_Ok_inv L now (JObj d) r rows Hv) as (_ & _ & _ & Gev & _).
      apply py_getitem_obj_inv. exact Gev.
    + destruct e; discriminate H.
Qed.

(** A [patient_id] of [true] is handled as the integer 1, and the accepted
    row keeps the payload's [event_ts]. *)
Lemma coercion_failure_dropped_witness :
  process (lib_of (JObj (dict_set "patient_id" (JBool true) example_obj))) 0 []
  = except_Exception
      (validate_obj (lib_of (JObj (dict_set "patient_id" (JBool true) example_obj))) 0
         (JObj (dict_set "patient_id" (JInt 1) (dict_set "patient_id" (JBool true) example_obj)))) /\
  dict_get "event_ts" (dict_set "patient_id" (JBool true) example_obj)
  = Some (JStr "2024-01-01T00:00:00Z").
Proof.
  destruct (coercion_failure_dropped
              (lib_of (JObj (dict_set "patient_id" (JBool true) example_obj))) 0 [] ""
              (dict_set "patient_id" (JBool true) example_obj) eq_refl eq_refl)
    as (_ & H2 & H3).
  split.
  - apply (H2 "patient_id" true); [simpl; tauto | reflexivity].
  - apply (H3 (mkVitals (JStr "2024-01-01T00:00:00Z") 1 80 f98_6 70 120 97 0) []).
    vm_compute. reflexivity.
Defined.

(** C3, refuted: a boolean is not a coercion failure. [int(True)] is 1, so a
    payload whose [patient_id] is [true] is accepted with patient 1. *)
Lemma boolean_patient_id_accepted :
  process (lib_of (JObj (dict_set "patient_id" (JBool true) example_obj))) 0 []
  = Ok [mkVitals (JStr "2024-01-01T00:00:00Z") 1 80 f98_6 70 120 97 0].
Proof. vm_compute. reflexivity. Qed.

(** ** C4: interval edges *)

(** C4. Take any payload [d] that is valid once field [f] is given some
    value [w] (an otherwise-valid record). Setting [f] to either end of its
    closed interval yields exactly one row, and setting it one unit outside
    either end yields none. The temperature edges are tried both as JSON
    floats and as JSON integers. *)
Theorem boundary_exactness (L : PyLib) (n : Z) (d : list (string * json))
  (f : string) (w : json) (r : VitalsRecord) :
  validate_obj L n (JObj (dict_set f w d)) = Ok [r] ->
  (forall v, In (f, v) edges_inside -> rows_yielded L n (JObj (dict_set f v d)) = 1%nat) /\
  (forall v, In (f, v) edges_outside -> rows_yielded L n (JObj (dict_set f v d)) = 0%nat).
Proof.
  intros H.
  assert (Hrow : forall v, In f required ->
            rows_yielded L n (JObj (dict_set f v d))
            = rows_yielded L n (JObj (dict_set f v (row_payload r)))).
  { intros v Hf. unfold rows_yielded.
    rewrite <- (validate_obj_row_payload L n (dict_set f w d) r f v H Hf).
    rewrite (validate_obj_ext L n (dict_set f v d) (dict_set f v (dict_set f w d))).
    - reflexivity.
    - intros key _. rewrite !dict_get_set. destruct (String.eqb key f); reflexivity. }
  destruct (validate_obj_Ok_inv _ _ _ _ _ H)
    as (_ & _ & _ & _ & _ & _ & _ & _ & _ & _ & Bp & Bh & Bt1 & Bt2 & Bd & Bs & Bsp).
  destruct r as [ev pid hr t dia sys sp ing].
  cbn [event_ts patient_id heart_rate temperature bp_diastolic bp_systolic spo2 ingest_ts]
    in *.
  split; intros v Hin; simpl in Hin;
    repeat destruct Hin as [Hin|Hin]; try contradiction; injection Hin as <- <-;
    rewrite Hrow by (simpl; tauto).
  all: lazymatch goal with
  | |- _ = 1%nat =>
      eapply rows_yielded_one, validate_obj_accept;
      first [reflexivity | lia | assumption | (vm_compute; reflexivity)]
  | |- _ = 0%nat => idtac
  end.
  all: apply rows_yielded_zero; intros r' rows Hv;
      destruct r' as [ev' pid' hr' t' dia' sys' sp' ing'];
      destruct (validate_obj_Ok_inv _ _ _ _ _ Hv)
        as (_ & _ & _ & _ & [vp' [Gp Ep]] & [vh' [Gh Eh]] & [vt' [Gt Et]] &
            [vd' [Gd Ed]] & [vs' [Gs Es]] & [vsp' [Gsp Esp]] &
            Bp' & Bh' & Bt1' & Bt2' & Bd' & Bs' & Bsp');
      cbn [event_ts patient_id heart_rate temperature bp_diastolic bp_systolic spo2
           ingest_ts] in *;
      vm_compute in Gp, Gh, Gt, Gd, Gs, Gsp;
      injection Gp as <-; injection Gh as <-; injection Gt as <-;
      injection Gd as <-; injection Gs as <-; injection Gsp as <-;
      vm_compute in Ep, Eh, Et, Ed, Es, Esp;
      injection Ep as Ep; injection Eh as Eh; injection Et as Et;
      injection Ed as Ed; injection Es as Es; injection Esp as Esp;
      subst; first [lia | (vm_compute in Bt1'; discriminate Bt1')
                        | (vm_compute in Bt2'; discriminate Bt2')].
Qed.

(** Every [spo2] edge, tried on the example payload. *)
Lemma boundary_exactness_witness :
  (forall v, In ("spo2", v) edges_inside ->
     rows_yielded (lib_of JNull) 0 (JObj (dict_set "spo2" v example_obj)) = 1%nat) /\
  (forall v, In ("spo2", v) edges_outside ->
     rows_yielded (lib_of JNull) 0 (JObj (dict_set "spo2" v example_obj)) = 0%nat).
Proof.
  apply (boundary_exactness (lib_of JNull) 0 example_obj "spo2" (JInt 97)
           (mkVitals (JStr "2024-01-01T00:00:00Z") 5 80 f98_6 70 120 97 0)).
  vm_compute. reflexivity.
Defined.

(** ** C8: repeated runs *)

Lemma validate_obj_ingest (L : PyLib) (t t' : Z) (obj : json) :
  validate_obj L t obj =
  match validate_obj L t' obj with
  | Ok rows => Ok (map (with_ingest t) rows)
  | Raise e => Raise e
  end.
Proof.
  unfold validate_obj.
  repeat match goal with
  | |- context [bind ?m _] => destruct m; cbn [bind]; [|reflexivity]
  | |- context [if ?c then _ else _] => destruct c; cbv iota; [reflexivity|]
  end.
  reflexivity.
Qed.

(** C8. Two runs of [process] on the same bytes, with clock readings [t1]
    and [t2], yield the same rows up to [ingest_ts]: the same accept or drop
    decision, and accepted rows that agree on every other field. *)
Theorem validate_deterministic (L : PyLib) (b : list Byte.byte) (t1 t2 : Z) :
  exists rows,
    process L t1 b = Ok (map (with_ingest t1) rows) /\
    process L t2 b = Ok (map (with_ingest t2) rows).
Proof.
  unfold process, process_try.
  destruct (decode_utf8 L b) as [raw|e]; cbn [bind];
    [| exists []; destruct e; split; reflexivity].
  destruct (json_loads L raw) as [obj|e]; cbn [bind];
    [| exists []; destruct e; split; reflexivity].
  rewrite (validate_obj_ingest L t1 0 obj), (validate_obj_ingest L t2 0 obj).
  destruct (validate_obj L 0 obj) as [rows|e].
  - exists rows. split; reflexivity.
  - exists []. destruct e; split; reflexivity.
Qed.

(** ** C9: start-up configuration *)

(** The pipeline stops at import time unless both identifiers are set and
    non-empty. *)
Lemma pipeline_startup_requires_both (env : Env) :
  (getenv_default env "PUBSUB_SUBSCRIPTION" "" = "" \/
   getenv_default env "BIGQUERY_TABLE" "" = "") ->
  pipeline_startup env
  = Exit "Missing env vars. Set PUBSUB_SUBSCRIPTION and BIGQUERY_TABLE.".
Proof.
  intros [H|H]; unfold pipeline_startup; rewrite H; cbn [String.eqb orb].
  - reflexivity.
  - destruct (String.eqb (getenv_default env "PUBSUB_SUBSCRIPTION" "") ""); reflexivity.
Qed.

(** C9, failing input [STREAM_INTERVAL=nan] with [PROJECT_ID] and
    [TOPIC_ID] set and the Pub/Sub client created: [float("nan")] is NaN and
    [stream_interval <= 0] is false for NaN, so [main] gets through its
    whole start-up, topic resolution included. In the loop, whatever
    [publish_message] does, [time.sleep(nan)] raises [ValueError], and so
    does the handler's [time.sleep(min(nan, 5))]: the exception escapes and
    ends the process after start-up. By contrast [ERROR_RATE=nan] is
    rejected at start-up, and the pipeline stops at start-up when either
    identifier is missing or empty. *)
Theorem nan_stream_interval_starts (L : PyLib) (sleep : spec_float -> result unit) :
  float_of_str L "nan" = Ok S754_nan -> float_of_str L "1" = Ok (Z2F 1) ->
  sleep S754_nan = Raise ValueError ->
  main_startup L nan_env (Ok tt)
  = Start (mkGenConfig 30 S754_nan default_error_rate "mixed" "delete",
           "projects/demo/topics/vitals") /\
  (forall publish : result string,
     loop_iteration sleep S754_nan publish = Raise ValueError) /\
  main_startup L nan_rate_env (Ok tt) = Exit "ERROR_RATE must be between 0.0 and 1.0" /\
  (forall env : Env,
     (getenv_default env "PUBSUB_SUBSCRIPTION" "" = "" \/
      getenv_default env "BIGQUERY_TABLE" "" = "") ->
     pipeline_startup env
     = Exit "Missing env vars. Set PUBSUB_SUBSCRIPTION and BIGQUERY_TABLE.").
Proof.
  intros Hnan H1 Hs. split; [|split; [|split]].
  - unfold main_startup, generator_startup.
    assert (E : getenv_default nan_env "STREAM_INTERVAL" "1" = "nan") by reflexivity.
    rewrite E, Hnan. vm_compute. reflexivity.
  - intros publish.
    assert (Hmin : py_min S754_nan (Z2F 5) = S754_nan) by reflexivity.
    unfold loop_iteration. destruct publish as [msg_id|e]; cbn [bind].
    + rewrite Hs. cbn [is_Exception]. rewrite Hmin. exact Hs.
    + destruct e; cbn [is_Exception]; rewrite Hmin; exact Hs.
  - unfold main_startup, generator_startup, get_env_float.
    assert (E1 : getenv_default nan_rate_env "STREAM_INTERVAL" "1" = "1") by reflexivity.
    assert (E2 : nan_rate_env "ERROR_RATE" = Some "nan") by reflexivity.
    rewrite E1, E2, H1. cbn [String.eqb Ascii.eqb Bool.eqb andb].
    rewrite Hnan. vm_compute. reflexivity.
  - apply pipeline_startup_requires_both.
Qed.

Lemma nan_stream_interval_starts_witness :
  main_startup (lib_of JNull) nan_env (Ok tt)
  = Start (mkGenConfig 30 S754_nan default_error_rate "mixed" "delete",
           "projects/demo/topics/vitals") /\
  (forall publish : result string,
     loop_iteration sleep_checked S754_nan publish = Raise ValueError) /\
  main_startup (lib_of JNull) nan_rate_env (Ok tt)
  = Exit "ERROR_RATE must be between 0.0 and 1.0" /\
  (forall env : Env,
     (getenv_default env "PUBSUB_SUBSCRIPTION" "" = "" \/
      getenv_default env "BIGQUERY_TABLE" "" = "") ->
     pipeline_startup env
     = Exit "Missing env vars. Set PUBSUB_SUBSCRIPTION and BIGQUERY_TABLE.").
Proof. apply nan_stream_interval_starts; reflexivity. Defined.

(** ** C7: the generator's injected errors *)

(** With [error_mode] one of [mixed] and the five modes, [inject_error]
    applies the mode it resolves to. *)
Lemma inject_error_resolved (d : list (string * json)) (em style mp fp : string) :
  In em ("mixed" :: modes) -> In mp modes ->
  inject_error d em style mp fp
  = inject_error d (if String.eqb em "mixed" then mp else em) style mp fp /\
  In (if String.eqb em "mixed" then mp else em) modes.
Proof.
  intros Hem Hmp.
  destruct Hem as [<-|Hem].
  - simpl in Hmp. split; [|exact Hmp].
    destruct Hmp as [<-|[<-|[<-|[<-|[<-|[]]]]]]; reflexivity.
  - simpl in Hem. destruct Hem as [<-|[<-|[<-|[<-|[<-|[]]]]]]; split; simpl; auto 6.
Qed.

(** A payload that cannot pass the checks: used for each injected error. *)
Ltac no_row_accepted :=
  apply validate_obj_drop; intros ?r ?rows ?Hv;
  match goal with
  | Hv : validate_obj _ _ _ = Ok _ |- _ =>
      destruct (validate_obj_Ok_inv _ _ _ _ _ Hv)
        as (_ & _ & _ & ?Gev & [?vp [?Gp ?Ep]] & [?vh [?Gh ?Eh]] & [?vt [?Gt ?Et]] &
            [?vd [?Gd ?Ed]] & [?vs [?Gs ?Es]] & [?vsp [?Gsp ?Esp]] &
            ?Bp & ?Bh & _ & _ & ?Bd & ?Bs & ?Bsp)
  end;
  cbn [py_getitem] in *;
  rewrite ?dict_get_set, ?dict_get_pop in *;
  simpl String.eqb in *; cbv iota in *;
  repeat match goal with
  | G : Raise _ = Ok _ |- _ => discriminate G
  | G : Ok _ = Ok _ |- _ => injection G as G; subst
  end;
  try match goal with
  | G : py_int (JStr _) = Ok _ |- _ => vm_compute in G; discriminate G
  end;
  simpl in *;
  repeat match goal with
  | G : Raise _ = Ok _ |- _ => discriminate G
  | G : Ok _ = Ok _ |- _ => injection G as G
  end;
  lia.


(** Setting [event_ts] to [null] (and adding the [_is_error] flag) in an
    accepted payload changes only the row's [event_ts]. *)
Lemma validate_obj_null_event_ts (L : PyLib) (n : Z) (d : list (string * json))
  (r : VitalsRecord) :
  validate_obj L n (JObj d) = Ok [r] ->
  validate_obj L n (JObj (dict_set "_is_error" (JBool true) (dict_set "event_ts" JNull d)))
  = Ok [mkVitals JNull (patient_id r) (heart_rate r) (temperature r)
          (bp_diastolic r) (bp_systolic r) (spo2 r) n].
Proof.
  intros Hv.
  destruct (validate_obj_Ok_inv L n (JObj d) r [] Hv)
    as (_ & _ & _ & _ & [vp [Gp Ep]] & [vh [Gh Eh]] & [vt [Gt Et]] &
        [vd [Gd Ed]] & [vs [Gs Es]] & [vsp [Gsp Esp]] &
        Bp & Bh & Bt1 & Bt2 & Bd & Bs & Bsp).
  set (d' := dict_set "_is_error" (JBool true) (dict_set "event_ts" JNull d)).
  assert (Hget : forall k v, k <> "_is_error" -> k <> "event_ts" ->
            py_getitem (JObj d) k = Ok v -> py_getitem (JObj d') k = Ok v).
  { intros k v H1 H2 H. apply py_getitem_obj_inv in H. apply py_getitem_obj.
    unfold d'. rewrite !dict_get_set.
    apply String.eqb_neq in H1, H2. rewrite H1, H2. exact H. }
  assert (Gev : py_getitem (JObj d') "event_ts" = Ok JNull).
  { apply py_getitem_obj. unfold d'. rewrite !dict_get_set. reflexivity. }
  apply Hget in Gp, Gh, Gt, Gd, Gs, Gsp; try discriminate.
  apply (validate_obj_accept L n (JObj d') JNull vp vh vt vd vs vsp); auto.
  apply py_getitem_obj_inv in Gev, Gp, Gh, Gt, Gd, Gs, Gsp.
  apply (required_present d' JNull vp vh vt vd vs vsp); assumption.
Qed.

(** C7 (amended). Each injection strategy of the generator, for every field
    choice, turns any payload into one that [process] drops, except when the
    injected change sets [event_ts] to [null] ([null_field], or
    [missing_field] in the [null] style, picking [event_ts]): [event_ts] is
    not checked, so then a payload that was accepted is still accepted, with
    [event_ts] null and the other fields unchanged. *)
Theorem injection_dropped_unless_event_ts_nulled (L : PyLib) (now : Z)
  (b : list Byte.byte) (s : string) (d : list (string * json))
  (em style mp fp : string) :
  decode_utf8 L b = Ok s ->
  json_loads L s = Ok (JObj (corrupt_payload d em style mp fp)) ->
  In em ("mixed" :: modes) -> In mp modes -> In fp required_fields ->
  (nulls_event_ts em style mp fp = false -> process L now b = Ok []) /\
  (nulls_event_ts em style mp fp = true ->
   forall r, validate_obj L now (JObj d) = Ok [r] ->
   process L now b = Ok [mkVitals JNull (patient_id r) (heart_rate r) (temperature r)
                           (bp_diastolic r) (bp_systolic r) (spo2 r) now]).
Proof.
  intros Hdec Hload Hem Hmp Hfp.
  rewrite (process_parsed L now b s _ Hdec Hload). clear Hdec Hload.
  unfold corrupt_payload, nulls_event_ts.
  destruct (inject_error_resolved d em style mp fp Hem Hmp) as [-> Hmode].
  generalize dependent (if String.eqb em "mixed" then mp else em).
  intros mode Hmode. clear Hem Hmp.
  simpl in Hmode, Hfp.
  split.
  - intros Hnull.
    destruct Hmode as [<-|[<-|[<-|[<-|[<-|[]]]]]]; unfold inject_error; simpl String.eqb in *;
      cbv iota in *.
    + destruct (String.eqb style "delete") eqn:Hst; cbv iota in *;
        destruct Hfp as [<-|[<-|[<-|[<-|[<-|[<-|[<-|[]]]]]]]]; try discriminate Hnull;
        no_row_accepted.
    + destruct Hfp as [<-|[<-|[<-|[<-|[<-|[<-|[<-|[]]]]]]]]; try discriminate Hnull;
        no_row_accepted.
    + no_row_accepted.
    + no_row_accepted.
    + no_row_accepted.
  - intros Hnull r' Hv.
    destruct Hmode as [<-|[<-|[<-|[<-|[<-|[]]]]]]; unfold inject_error; simpl String.eqb in *;
      cbv iota in *; try discriminate Hnull.
    + destruct (String.eqb style "delete"); cbv iota in *; [discriminate Hnull|].
      apply String.eqb_eq in Hnull. subst fp.
      rewrite (validate_obj_null_event_ts L now d r' Hv). reflexivity.
    + apply String.eqb_eq in Hnull. subst fp.
      rewrite (validate_obj_null_event_ts L now d r' Hv). reflexivity.
Qed.

(** The example payload under [missing_field] in the [delete] style,
    picking [heart_rate]. *)
Lemma injection_dropped_unless_event_ts_nulled_witness :
  (nulls_event_ts "missing_field" "delete" "missing_field" "heart_rate" = false ->
   process (lib_of (JObj (corrupt_payload example_obj "missing_field" "delete"
                            "missing_field" "heart_rate"))) 0 [] = Ok []) /\
  (nulls_event_ts "missing_field" "delete" "missing_field" "heart_rate" = true ->
   forall r, validate_obj (lib_of (JObj (corrupt_payload example_obj "missing_field" "delete"
                            "missing_field" "heart_rate"))) 0 (JObj example_obj) = Ok [r] ->
   process (lib_of (JObj (corrupt_payload example_obj "missing_field" "delete"
                            "missing_field" "heart_rate"))) 0 []
   = Ok [mkVitals JNull (patient_id r) (heart_rate r) (temperature r)
           (bp_diastolic r) (bp_systolic r) (spo2 r) 0]).
Proof.
  apply (injection_dropped_unless_event_ts_nulled
           (lib_of (JObj (corrupt_payload example_obj "missing_field" "delete"
                            "missing_field" "heart_rate"))) 0 [] "" example_obj
           "missing_field" "delete" "missing_field" "heart_rate");
    try reflexivity; simpl; tauto.
Defined.

(** C7, refuted: [null_field] picking [event_ts] leaves the example payload
    accepted, with [event_ts] null. *)
Lemma null_event_ts_accepted :
  process (lib_of (JObj (corrupt_payload example_obj "null_field" "delete"
                           "null_field" "event_ts"))) 0 []
  = Ok [mkVitals JNull 5 80 f98_6 70 120 97 0].
Proof. vm_compute. reflexivity. Qed.

(** * Further properties of the code *)

(** ** Float comparison *)

(** [a <= b <= c] on floats gives [a <= c]. *)
Lemma float_le_trans (a b c : spec_float) :
  float_le a b = true -> float_le b c = true -> float_le a c = true.
Proof.
  unfold float_le, SFleb, SFcompare.
  destruct a as [sa|sa| |sa ma ea], b as [sb|sb| |sb mb eb], c as [sc|sc| |sc mc ec];
    try destruct sa; try destruct sb; try destruct sc; simpl; auto; try discriminate;
    change (Pos.compare_cont Eq) with Pos.compare;
    repeat match goal with
    | |- context [Z.compare ?x ?y] => destruct (Z.compare_spec x y)
    | |- context [Pos.compare ?x ?y] => destruct (Pos.compare_spec x y)
    end; simpl; auto; try discriminate; intros; try lia.
Qed.

(** ** The validator reads only the seven required keys *)


Lemma validate_obj_set_other (L : PyLib) (n : Z) (d : list (string * json))
  (k : string) (v : json) :
  ~ In k required ->
  validate_obj L n (JObj (dict_set k v d)) = validate_obj L n (JObj d).
Proof.
  intros Hk. apply validate_obj_ext. intros k' Hk'.
  rewrite dict_get_set. destruct (String.eqb k' k) eqn:E; [|reflexivity].
  apply String.eqb_eq in E. subst. contradiction.
Qed.

(** Setting a key that is not one of the seven required keys (such as the
    generator's [_is_error] flag) never changes what [process] does with a
    parsed object: the same rows, or the same exception. *)
Theorem extra_key_ignored (L : PyLib) (n : Z) (d : list (string * json))
  (k : string) (v : json) :
  ~ In k required ->
  validate_obj L n (JObj (dict_set k v d)) = validate_obj L n (JObj d).
Proof. apply validate_obj_set_other. Qed.

Lemma extra_key_ignored_witness :
  validate_obj (lib_of JNull) 0 (JObj (dict_set "_is_error" (JBool true) example_obj))
  = validate_obj (lib_of JNull) 0 (JObj example_obj).
Proof.
  apply extra_key_ignored. simpl. intuition discriminate.
Defined.

(** ** Clean generator payloads *)

(** A payload built by [gen_vitals] and left uncorrupted, its draws inside
    their ranges, is accepted exactly when the patient id is at most 10000. *)
Lemma clean_payload_validated (L : PyLib) (n : Z) (pid : Z)
  (now_iso : string) (hr dia sys sp : Z) (t : spec_float) :
  1 <= pid ->
  55 <= hr <= 130 -> float_le f96_5 t = true -> float_le t f102_5 = true ->
  90 <= sys <= 160 -> 55 <= dia <= 110 -> 88 <= sp <= 100 ->
  validate_obj L n (JObj (clean_payload (gen_vitals pid now_iso hr t sys dia sp)))
  = if pid <=? 10000 then Ok [mkVitals (JStr now_iso) pid hr t dia sys sp n] else Ok [].
Proof.
  intros Hp Hh Ht1 Ht2 Hs Hd Hsp.
  unfold clean_payload. rewrite validate_obj_set_other by (simpl; intuition discriminate).
  assert (T1 : float_le (Z2F 85) t = true)
    by (apply (float_le_trans _ f96_5); [vm_compute; reflexivity | exact Ht1]).
  assert (T2 : float_le t (Z2F 110) = true)
    by (apply (float_le_trans _ f102_5); [exact Ht2 | vm_compute; reflexivity]).
  destruct (pid <=? 10000) eqn:E.
  - apply Z.leb_le in E.
    apply (validate_obj_accept L n _ (JStr now_iso) (JInt pid) (JInt hr) (JFloat t)
             (JInt dia) (JInt sys) (JInt sp)); try reflexivity; try lia; assumption.
  - apply Z.leb_gt in E.
    unfold validate_obj. simpl. rewrite (proj2 (Z.leb_gt pid 10000) E).
    rewrite andb_false_r. reflexivity.
Qed.

(** ** An integer field is judged by [int()] of its value *)

(** Replacing [heart_rate] in an accepted payload by any JSON value [v]:
    the payload stays accepted, with [heart_rate] set to [int(v)], exactly
    when [int(v)] succeeds and lies in [[30, 220]]; otherwise nothing is
    yielded. So a JSON float is truncated toward zero before the check, and
    a numeric string is parsed. *)
Theorem heart_rate_judged_by_int (L : PyLib) (n : Z) (d : list (string * json))
  (r : VitalsRecord) (v : json) :
  validate_obj L n (JObj d) = Ok [r] ->
  except_Exception (validate_obj L n (JObj (dict_set "heart_rate" v d))) =
  match py_int v with
  | Ok z =>
      if (30 <=? z) && (z <=? 220)
      then Ok [mkVitals (event_ts r) (patient_id r) z (temperature r)
                 (bp_diastolic r) (bp_systolic r) (spo2 r) n]
      else Ok []
  | Raise _ => Ok []
  end.
Proof.
  intros Hv.
  destruct (validate_obj_Ok_inv L n (JObj d) r [] Hv)
    as (_ & _ & _ & Gev & [vp [Gp Ep]] & [vh [Gh Eh]] & [vt [Gt Et]] &
        [vd [Gd Ed]] & [vs [Gs Es]] & [vsp [Gsp Esp]] &
        Bp & Bh & Bt1 & Bt2 & Bd & Bs & Bsp).
  set (d' := dict_set "heart_rate" v d).
  assert (Hget : forall k w, k <> "heart_rate" ->
            py_getitem (JObj d) k = Ok w -> py_getitem (JObj d') k = Ok w).
  { intros k w H1 H. apply py_getitem_obj_inv in H. apply py_getitem_obj.
    unfold d'. rewrite dict_get_set. apply String.eqb_neq in H1. rewrite H1. exact H. }
  assert (Gh' : py_getitem (JObj d') "heart_rate" = Ok v).
  { apply py_getitem_obj. unfold d'. rewrite dict_get_set. reflexivity. }
  apply Hget in Gev, Gp, Gt, Gd, Gs, Gsp; try discriminate.
  assert (Hall : py_all_in (JObj d') required = Ok true).
  { apply py_getitem_obj_inv in Gev, Gp, Gh', Gt, Gd, Gs, Gsp.
    apply (required_present d' (event_ts r) vp v vt vd vs vsp); assumption. }
  destruct (py_int v) as [z|e] eqn:Ez.
  - destruct ((30 <=? z) && (z <=? 220)) eqn:Ez2.
    + apply andb_true_iff in Ez2 as [Z1 Z2]. apply Z.leb_le in Z1, Z2.
      rewrite (validate_obj_accept L n (JObj d') (event_ts r) vp v vt vd vs vsp
                 (patient_id r) z (bp_diastolic r) (bp_systolic r) (spo2 r) (temperature r));
        auto.
    + apply validate_obj_drop. intros r' rows Hv'.
      destruct (validate_obj_Ok_inv L n (JObj d') r' rows Hv')
        as (_ & _ & _ & _ & _ & [vh' [Gh'' Eh']] & _ & _ & _ & _ & _ & Bh' & _).
      rewrite Gh' in Gh''. injection Gh'' as <-. rewrite Ez in Eh'.
      injection Eh' as Eh'.
      apply andb_false_iff in Ez2 as [Z1|Z1]; apply Z.leb_gt in Z1; lia.
  - apply validate_obj_drop. intros r' rows Hv'.
    destruct (validate_obj_Ok_inv L n (JObj d') r' rows Hv')
      as (_ & _ & _ & _ & _ & [vh' [Gh'' Eh']] & _).
    rewrite Gh' in Gh''. injection Gh'' as <-. congruence.
Qed.

(** A heart rate of [220.5] is accepted as 220. *)
Lemma heart_rate_judged_by_int_witness :
  except_Exception (validate_obj (lib_of JNull) 0
                      (JObj (dict_set "heart_rate" (JFloat f220_5) example_obj)))
  = Ok [mkVitals (JStr "2024-01-01T00:00:00Z") 5 220 f98_6 70 120 97 0].
Proof.
  rewrite (heart_rate_judged_by_int (lib_of JNull) 0 example_obj
             (mkVitals (JStr "2024-01-01T00:00:00Z") 5 80 f98_6 70 120 97 0)
             (JFloat f220_5)).
  - vm_compute. reflexivity.
  - vm_compute. reflexivity.
Defined.

(** ** The temperature is judged by [float()] of its value *)

(** Replacing [temperature] in an accepted payload by any JSON value [v]:
    the payload stays accepted, with [temperature] set to [float(v)],
    exactly when [float(v)] succeeds and [85.0 <= float(v) <= 110.0];
    otherwise nothing is yielded. In particular [float(v)] being NaN, for
    which both comparisons are false, always drops the payload. *)
Theorem temperature_judged_by_float (L : PyLib) (n : Z) (d : list (string * json))
  (r : VitalsRecord) (v : json) :
  validate_obj L n (JObj d) = Ok [r] ->
  except_Exception (validate_obj L n (JObj (dict_set "temperature" v d))) =
  match py_float L v with
  | Ok f =>
      if float_le (Z2F 85) f && float_le f (Z2F 110)
      then Ok [mkVitals (event_ts r) (patient_id r) (heart_rate r) f
                 (bp_diastolic r) (bp_systolic r) (spo2 r) n]
      else Ok []
  | Raise _ => Ok []
  end.
Proof.
  intros Hv.
  destruct (validate_obj_Ok_inv L n (JObj d) r [] Hv)
    as (_ & _ & _ & Gev & [vp [Gp Ep]] & [vh [Gh Eh]] & [vt [Gt Et]] &
        [vd [Gd Ed]] & [vs [Gs Es]] & [vsp [Gsp Esp]] &
        Bp & Bh & Bt1 & Bt2 & Bd & Bs & Bsp).
  set (d' := dict_set "temperature" v d).
  assert (Hget : forall k w, k <> "temperature" ->
            py_getitem (JObj d) k = Ok w -> py_getitem (JObj d') k = Ok w).
  { intros k w H1 H. apply py_getitem_obj_inv in H. apply py_getitem_obj.
    unfold d'. rewrite dict_get_set. apply String.eqb_neq in H1. rewrite H1. exact H. }
  assert (Gt' : py_getitem (JObj d') "temperature" = Ok v).
  { apply py_getitem_obj. unfold d'. rewrite dict_get_set. reflexivity. }
  apply Hget in Gev, Gp, Gh, Gd, Gs, Gsp; try discriminate.
  assert (Hall : py_all_in (JObj d') required = Ok true).
  { apply py_getitem_obj_inv in Gev, Gp, Gh, Gt', Gd, Gs, Gsp.
    apply (required_present d' (event_ts r) vp vh v vd vs vsp); assumption. }
  destruct (py_float L v) as [f|e] eqn:Ef.
  - destruct (float_le (Z2F 85) f && float_le f (Z2F 110)) eqn:Ef2.
    + apply andb_true_iff in Ef2 as [F1 F2].
      rewrite (validate_obj_accept L n (JObj d') (event_ts r) vp vh v vd vs vsp
                 (patient_id r) (heart_rate r) (bp_diastolic r) (bp_systolic r) (spo2 r) f);
        auto.
    + apply validate_obj_drop. intros r' rows Hv'.
      destruct (validate_obj_Ok_inv L n (JObj d') r' rows Hv')
        as (_ & _ & _ & _ & _ & _ & [vt' [Gt'' Et']] & _ & _ & _ & _ & _ & Bt1' & Bt2' & _).
      rewrite Gt' in Gt''. injection Gt'' as <-. rewrite Ef in Et'.
      injection Et' as Et'. subst f. rewrite Bt1', Bt2' in Ef2. discriminate Ef2.
  - apply validate_obj_drop. intros r' rows Hv'.
    destruct (validate_obj_Ok_inv L n (JObj d') r' rows Hv')
      as (_ & _ & _ & _ & _ & _ & [vt' [Gt'' Et']] & _).
    rewrite Gt' in Gt''. injection Gt'' as <-. congruence.
Qed.

(** A temperature given as the string ["nan"] is dropped. *)
Lemma temperature_judged_by_float_witness :
  except_Exception (validate_obj (lib_of JNull) 0
                      (JObj (dict_set "temperature" (JStr "nan") example_obj)))
  = Ok [].
Proof.
  rewrite (temperature_judged_by_float (lib_of JNull) 0 example_obj
             (mkVitals (JStr "2024-01-01T00:00:00Z") 5 80 f98_6 70 120 97 0)
             (JStr "nan")).
  - vm_compute. reflexivity.
  - vm_compute. reflexivity.
Defined.

(** ** Topic resolution *)

Lemma str_prefix_app (p s : string) : str_prefix p (p ++ s) = true.
Proof. induction p as [|c p IH]; simpl; [reflexivity|]. rewrite Ascii.eqb_refl. exact IH. Qed.

Lemma str_contains_prefix (s p : string) : str_prefix p s = true -> str_contains s p = true.
Proof. intros H. destruct s; simpl; rewrite H; reflexivity. Qed.

Lemma str_contains_app_l (a s p : string) :
  str_contains s p = true -> str_contains (a ++ s) p = true.
Proof.
  intros H. induction a as [|c a IH]; simpl; [exact H|].
  rewrite IH. apply orb_true_r.
Qed.

Lemma is_full_topic_path (project topic : string) :
  is_full_topic (topic_path project topic) = true.
Proof.
  unfold is_full_topic, topic_path. rewrite str_prefix_app. cbn [andb].
  apply (str_contains_app_l "projects/"), str_contains_app_l,
    str_contains_prefix, str_prefix_app.
Qed.

(** Whatever the environment, a topic path the generator goes on with
    starts with [projects/] and contains [/topics/]. *)
Theorem resolve_topic_path_full (env : Env) (p : string) :
  resolve_topic_path env = Start p -> is_full_topic p = true.
Proof.
  unfold resolve_topic_path. cbv zeta.
  destruct (is_full_topic (env_or (env "TOPIC_ID") (env_or (env "PUBSUB_TOPIC") "")))
    eqn:E1; [intros H; injection H as <-; exact E1|].
  destruct (is_full_topic (env_or (env "PUBSUB_TOPIC_FULL") "")) eqn:E2;
    [intros H; injection H as <-; exact E2|].
  destruct (_ || _); [discriminate|].
  intros H. injection H as <-. apply is_full_topic_path.
Qed.

Lemma resolve_topic_path_full_witness :
  is_full_topic "projects/demo/topics/vitals" = true.
Proof.
  apply (resolve_topic_path_full
           (fun k => if String.eqb k "PROJECT_ID" then Some "demo"
                     else if String.eqb k "TOPIC_ID" then Some "vitals" else None)).
  vm_compute. reflexivity.
Defined.

(** Once [TOPIC_ID] is set to a non-empty string, [PUBSUB_TOPIC] is never
    read: a full path in [PUBSUB_TOPIC] is ignored, even when the
    resulting configuration is then rejected. *)
Theorem topic_id_shadows_pubsub_topic (env : Env) (t : string) (p : option string) :
  env "TOPIC_ID" = Some t -> t <> "" ->
  resolve_topic_path (fun k => if String.eqb k "PUBSUB_TOPIC" then p else env k)
  = resolve_topic_path env.
Proof.
  intros Ht Hne. unfold resolve_topic_path. cbn [String.eqb Ascii.eqb Bool.eqb andb].
  rewrite Ht.
  assert (E : forall x, env_or (Some t) x = t).
  { intros x. simpl. apply String.eqb_neq in Hne. rewrite Hne. reflexivity. }
  rewrite !E. reflexivity.
Qed.

(** With [TOPIC_ID=vitals] and no project, the full path in [PUBSUB_TOPIC]
    does not rescue the start-up. *)
Lemma topic_id_shadows_pubsub_topic_witness :
  resolve_topic_path
    (fun k => if String.eqb k "PUBSUB_TOPIC" then Some "projects/demo/topics/vitals"
              else (fun k' => if String.eqb k' "TOPIC_ID" then Some "vitals" else None) k)
  = resolve_topic_path (fun k' => if String.eqb k' "TOPIC_ID" then Some "vitals" else None).
Proof.
  apply (topic_id_shadows_pubsub_topic
           (fun k' => if String.eqb k' "TOPIC_ID" then Some "vitals" else None) "vitals").
  - reflexivity.
  - discriminate.
Defined.

(** ** [inject_error] touches at most one key *)

(** [inject_error] leaves every key but one unchanged, and that key is the
    field it picked, [heart_rate], [spo2] or [bp_systolic]. *)
Theorem inject_error_changes_one_key (d : list (string * json))
  (em style mp fp : string) :
  exists k, In k [fp; "heart_rate"; "spo2"; "bp_systolic"] /\
    forall k', k' <> k -> dict_get k' (inject_error d em style mp fp) = dict_get k' d.
Proof.
  assert (Hset : forall k v k', k' <> k -> dict_get k' (dict_set k v d) = dict_get k' d).
  { intros k v k' H. rewrite dict_get_set. apply String.eqb_neq in H. rewrite H. reflexivity. }
  assert (Hpop : forall k k', k' <> k -> dict_get k' (dict_pop k d) = dict_get k' d).
  { intros k k' H. rewrite dict_get_pop. apply String.eqb_neq in H. rewrite H. reflexivity. }
  unfold inject_error.
  destruct (String.eqb em "none"); [exists fp; simpl; auto|].
  cbv zeta.
  destruct (String.eqb (if String.eqb em "mixed" then mp else em) "missing_field").
  { exists fp. split; [simpl; auto|]. intros k' H.
    destruct (String.eqb style "delete"); auto. }
  destruct (String.eqb (if String.eqb em "mixed" then mp else em) "null_field").
  { exists fp. split; [simpl; auto|]. auto. }
  destruct (String.eqb (if String.eqb em "mixed" then mp else em) "negative_value").
  { exists "heart_rate". split; [simpl; auto|]. auto. }
  destruct (String.eqb (if String.eqb em "mixed" then mp else em) "out_of_range").
  { exists "spo2". split; [simpl; auto|]. auto. }
  destruct (String.eqb (if String.eqb em "mixed" then mp else em) "bad_type").
  { exists "bp_systolic". split; [simpl; auto|]. auto. }
  exists fp. simpl; auto.
Qed.

(** ** The error flag does not reach the validator *)

(** With [ERROR_MODE=none] a payload flagged [_is_error = True] by the loop
    is judged exactly as the same payload flagged [False]. *)
Theorem none_mode_flag_ignored (L : PyLib) (n : Z) (d : list (string * json))
  (style mp fp : string) :
  validate_obj L n (JObj (corrupt_payload d "none" style mp fp))
  = validate_obj L n (JObj (clean_payload d)).
Proof.
  unfold corrupt_payload, clean_payload, inject_error. cbn [String.eqb Ascii.eqb Bool.eqb andb].
  rewrite !validate_obj_set_other by (simpl; intuition discriminate). reflexivity.
Qed.

(** ** One pass of the generator loop *)

Lemma patient_ids_nth (pc : Z) (i : nat) (pid : Z) :
  nth_error (patient_ids pc) i = Some pid -> pid = Z.of_nat (S i) /\ pid <= pc.
Proof.
  unfold patient_ids. rewrite nth_error_map, nth_error_seq.
  destruct (Nat.ltb i (Z.to_nat pc)) eqn:E; [|discriminate].
  apply Nat.ltb_lt in E. intros H. injection H as <-. lia.
Qed.

(** Composition of the generator with the validator: a payload the loop
    publishes without corrupting it (the draw [u] not below the error rate,
    the other draws inside the ranges of [gen_vitals]) carries the patient
    id [choice_idx + 1] and is accepted with the generated values exactly
    when that id is at most 10000, which always holds when
    [PATIENT_COUNT <= 10000]. *)
Theorem uncorrupted_payload_accepted (L : PyLib) (n : Z) (cfg : GenConfig)
  (i : nat) (now_iso : string) (hr : Z) (t : spec_float) (sys dia sp : Z)
  (u : spec_float) (mp fp : string) (p : list (string * json)) :
  generator_payload cfg i now_iso hr t sys dia sp u mp fp = Some p ->
  SFltb u (error_rate cfg) = false ->
  55 <= hr <= 130 -> float_le f96_5 t = true -> float_le t f102_5 = true ->
  90 <= sys <= 160 -> 55 <= dia <= 110 -> 88 <= sp <= 100 ->
  Z.of_nat (S i) <= patient_count cfg /\
  validate_obj L n (JObj p)
  = if Z.of_nat (S i) <=? 10000
    then Ok [mkVitals (JStr now_iso) (Z.of_nat (S i)) hr t dia sys sp n]
    else Ok [].
Proof.
  intros Hp Hu Hh Ht1 Ht2 Hs Hd Hsp. unfold generator_payload in Hp.
  destruct (nth_error (patient_ids (patient_count cfg)) i) as [pid|] eqn:E;
    [|discriminate].
  apply patient_ids_nth in E as [-> Hle].
  rewrite Hu in Hp. injection Hp as <-.
  split; [exact Hle|].
  apply clean_payload_validated; try assumption; lia.
Qed.

(** Patient 12 of 30, not corrupted since [u = 0.1] is not below the
    default error rate [0.1]. *)
Lemma uncorrupted_payload_accepted_witness :
  12 <= patient_count (mkGenConfig 30 (Z2F 1) default_error_rate "mixed" "delete") /\
  (validate_obj (lib_of JNull) 0
     (JObj (clean_payload (gen_vitals 12 "2024-01-01T00:00:00+00:00" 72 f98_6 120 80 97)))
   = if 12 <=? 10000
     then Ok [mkVitals (JStr "2024-01-01T00:00:00+00:00") 12 72 f98_6 80 120 97 0]
     else Ok []).
Proof.
  apply (uncorrupted_payload_accepted (lib_of JNull) 0
           (mkGenConfig 30 (Z2F 1) default_error_rate "mixed" "delete") 11
           "2024-01-01T00:00:00+00:00" 72 f98_6 120 80 97 default_error_rate
           "null_field" "event_ts");
    try lia; vm_compute; reflexivity.
Defined.
